(** * Detection engine of LogAnalyzer (EventDetector.cpp)

    Shallow embedding of the data model of [LogEntry.h] and of the four
    detection entry points of [EventDetector]:
    - [detectMultipleFailedLogins]
    - [detectLoginsOutsideBusinessHours]
    - [detectMultipleIPAddresses]
    - [detectAll]

    Modelling choices:
    - a [std::chrono::system_clock::time_point] is its tick count, a [Z];
      libstdc++ counts nanoseconds, so one minute is [ticks_per_minute] ticks;
    - [std::map<std::string, std::vector<LogEntry>>] is an association list
      kept in ascending key order (the iteration order of [std::map]);
    - [std::set<std::string>] is a strictly ascending list of strings;
    - [std::sort] is a parameter [sort_by_timestamp] of the detectors; the
      proofs assume only its contract (a permutation, ascending timestamps),
      because [std::sort] is not stable;
    - [getHourOfDay] goes through [std::localtime], which depends on the time
      zone of the machine: it is a parameter of the detectors as well;
    - the [for] loops over indices are kept as index loops; the outer one
      runs on fuel [size()], which is enough (lemmas [failed_scan_fuel] and
      [ip_scan_fuel]). *)

From Stdlib Require Import ZArith String List Permutation Sorted Lia.
From Stdlib Require Import Mergesort Orders DecimalString DecimalZ Ascii.
Import ListNotations.
Open Scope Z_scope.

(** ** Data model (LogEntry.h) *)

Inductive LoginStatus : Type :=
| SUCCESS
| FAILED
| UNKNOWN.

Definition LoginStatus_eqb (a b : LoginStatus) : bool :=
  match a, b with
  | SUCCESS, SUCCESS | FAILED, FAILED | UNKNOWN, UNKNOWN => true
  | _, _ => false
  end.

Record LogEntry : Type := mkLogEntry {
  timestamp : Z;
  username : string;
  ip_address : string;
  status : LoginStatus
}.

Inductive SuspiciousEventType : Type :=
| MULTIPLE_FAILED_LOGINS
| LOGIN_OUTSIDE_BUSINESS_HOURS
| MULTIPLE_IP_ADDRESSES.

Module SuspiciousEvent.

Record SuspiciousEvent : Type := mkSuspiciousEvent {
  type : SuspiciousEventType;
  username : string;
  ip_addresses : list string;
  first_occurrence : Z;
  last_occurrence : Z;
  event_count : Z;
  description : string
}.

End SuspiciousEvent.

Abbreviation SuspiciousEvent := SuspiciousEvent.SuspiciousEvent.

(** The members of [class EventDetector] (its configuration). *)
Record EventDetector : Type := mkEventDetector {
  failed_login_threshold_ : Z;
  time_window_minutes_ : Z;
  business_hour_start_ : Z;
  business_hour_end_ : Z
}.

(** [EventDetector::EventDetector()]: the default configuration. *)
Definition default_detector : EventDetector :=
  mkEventDetector 5 10 8 18.

(** [std::to_string] on an [int]. *)
Definition to_string (z : Z) : string := NilZero.string_of_int (Z.to_int z).

(** ** Time (std::chrono) *)

(** Ticks of [system_clock] (nanoseconds) in one [std::chrono::minutes]. *)
Definition ticks_per_minute : Z := 60 * 1000000000.

(** [EventDetector::isWithinTimeWindow]: [duration_cast<minutes>] truncates
    toward zero, which is [Z.quot]. *)
Definition isWithinTimeWindow (d : EventDetector) (time1 time2 : Z) : bool :=
  let duration := if time2 <? time1 then time1 - time2 else time2 - time1 in
  let minutes := Z.quot duration ticks_per_minute in
  minutes <=? time_window_minutes_ d.

(** ** Containers *)

(** [m[k].push_back(e)] on a [std::map<std::string, std::vector<LogEntry>>]:
    [operator[]] inserts an empty vector at the key's ordered position when
    the key is absent. *)
Fixpoint map_push (k : string) (e : LogEntry)
    (m : list (string * list LogEntry)) : list (string * list LogEntry) :=
  match m with
  | [] => [(k, [e])]
  | (k', v) :: m' =>
      match String.compare k k' with
      | Eq => (k', v ++ [e]) :: m'
      | Lt => (k, [e]) :: m
      | Gt => (k', v) :: map_push k e m'
      end
  end.

(** Step 1 of both clustering detectors: the records of status [s], grouped
    by username, in input order inside each group. *)
Definition group_by_username (s : LoginStatus) (entries : list LogEntry)
    : list (string * list LogEntry) :=
  fold_left
    (fun m entry =>
       if LoginStatus_eqb (status entry) s
       then map_push (username entry) entry m
       else m)
    entries [].

(** [std::set<std::string>::insert]. *)
Fixpoint set_insert (x : string) (s : list string) : list string :=
  match s with
  | [] => [x]
  | y :: s' =>
      match String.compare x y with
      | Lt => x :: s
      | Eq => s
      | Gt => y :: set_insert x s'
      end
  end.

(** ** Detectors *)

Section Detectors.

(** [std::sort] with the comparator [a.timestamp < b.timestamp]. *)
Variable sort_by_timestamp : list LogEntry -> list LogEntry.

(** [EventDetector::getHourOfDay]: [std::localtime(...)->tm_hour]. *)
Variable getHourOfDay : Z -> Z.

Variable d : EventDetector.

(** *** detectMultipleFailedLogins *)

(** The inner loop [for (j = i + 1; ...)]: [rest] is the suffix of the
    sorted vector starting at index [j]. Returns [(count, window_end_idx)]. *)
Fixpoint count_within_window (window_start : LogEntry) (rest : list LogEntry)
    (j : nat) (count : Z) (window_end_idx : nat) : Z * nat :=
  match rest with
  | [] => (count, window_end_idx)
  | e :: rest' =>
      if isWithinTimeWindow d (timestamp window_start) (timestamp e)
      then count_within_window window_start rest' (S j) (count + 1) j
      else (count, window_end_idx)
  end.

Definition failed_event (user : string) (window_start window_end : LogEntry)
    (count : Z) : SuspiciousEvent :=
  {| SuspiciousEvent.type := MULTIPLE_FAILED_LOGINS;
     SuspiciousEvent.username := user;
     SuspiciousEvent.ip_addresses := [ip_address window_start];
     SuspiciousEvent.first_occurrence := timestamp window_start;
     SuspiciousEvent.last_occurrence := timestamp window_end;
     SuspiciousEvent.event_count := count;
     SuspiciousEvent.description :=
       ("User '" ++ user ++ "' had " ++ to_string count ++
        " failed login attempts within " ++
        to_string (time_window_minutes_ d) ++ " minutes")%string |}.

(** The outer loop [for (i = 0; i < size(); ++i)] over the sorted failed
    logins [v] of one user; on a report, [i = window_end_idx] then [++i]. *)
Fixpoint failed_scan (user : string) (v : list LogEntry) (fuel i : nat)
    : list SuspiciousEvent :=
  match fuel with
  | O => []
  | S fuel' =>
      match nth_error v i with
      | None => []
      | Some window_start =>
          let '(count, window_end_idx) :=
            count_within_window window_start (skipn (S i) v) (S i) 1 i in
          if failed_login_threshold_ d <=? count then
            let window_end := nth window_end_idx v window_start in
            failed_event user window_start window_end count
              :: failed_scan user v fuel' (S window_end_idx)
          else failed_scan user v fuel' (S i)
      end
  end.

Definition failed_logins_of_user (user : string) (v : list LogEntry)
    : list SuspiciousEvent :=
  let user_failed_logins := sort_by_timestamp v in
  failed_scan user user_failed_logins (length user_failed_logins) 0.

Definition detectMultipleFailedLogins (entries : list LogEntry)
    : list SuspiciousEvent :=
  flat_map (fun p => failed_logins_of_user (fst p) (snd p))
    (group_by_username FAILED entries).

(** *** detectLoginsOutsideBusinessHours *)

Definition outside_hours_event (entry : LogEntry) (hour : Z) : SuspiciousEvent :=
  {| SuspiciousEvent.type := LOGIN_OUTSIDE_BUSINESS_HOURS;
     SuspiciousEvent.username := username entry;
     SuspiciousEvent.ip_addresses := [ip_address entry];
     SuspiciousEvent.first_occurrence := timestamp entry;
     SuspiciousEvent.last_occurrence := timestamp entry;
     SuspiciousEvent.event_count := 1;
     SuspiciousEvent.description :=
       ("User '" ++ username entry ++ "' logged in at hour " ++
        to_string hour ++ " (outside business hours: " ++
        to_string (business_hour_start_ d) ++ ":00-" ++
        to_string (business_hour_end_ d) ++ ":00)")%string |}.

Definition detectLoginsOutsideBusinessHours (entries : list LogEntry)
    : list SuspiciousEvent :=
  flat_map
    (fun entry =>
       if negb (LoginStatus_eqb (status entry) SUCCESS) then []
       else
         let hour := getHourOfDay (timestamp entry) in
         let outside_hours :=
           (hour <? business_hour_start_ d) || (business_hour_end_ d <=? hour) in
         if outside_hours then [outside_hours_event entry hour] else [])
    entries.

(** *** detectMultipleIPAddresses *)

(** The inner loop of [detectMultipleIPAddresses]; returns
    [(ip_addresses, window_end_idx)]. *)
Fixpoint collect_ips_within_window (window_start : LogEntry)
    (rest : list LogEntry) (j : nat) (ip_addresses : list string)
    (window_end_idx : nat) : list string * nat :=
  match rest with
  | [] => (ip_addresses, window_end_idx)
  | e :: rest' =>
      if isWithinTimeWindow d (timestamp window_start) (timestamp e)
      then collect_ips_within_window window_start rest' (S j)
             (set_insert (ip_address e) ip_addresses) j
      else (ip_addresses, window_end_idx)
  end.

Definition ip_event (user : string) (window_start window_end : LogEntry)
    (ip_addresses : list string) : SuspiciousEvent :=
  {| SuspiciousEvent.type := MULTIPLE_IP_ADDRESSES;
     SuspiciousEvent.username := user;
     (* constructed with [""], then cleared and refilled from the set *)
     SuspiciousEvent.ip_addresses := ip_addresses;
     SuspiciousEvent.first_occurrence := timestamp window_start;
     SuspiciousEvent.last_occurrence := timestamp window_end;
     SuspiciousEvent.event_count := Z.of_nat (length ip_addresses);
     SuspiciousEvent.description :=
       ("User '" ++ user ++ "' logged in from " ++
        to_string (Z.of_nat (length ip_addresses)) ++
        " different IP addresses within " ++
        to_string (time_window_minutes_ d) ++ " minutes")%string |}.

Fixpoint ip_scan (user : string) (v : list LogEntry) (fuel i : nat)
    : list SuspiciousEvent :=
  match fuel with
  | O => []
  | S fuel' =>
      match nth_error v i with
      | None => []
      | Some window_start =>
          let '(ip_addresses, window_end_idx) :=
            collect_ips_within_window window_start (skipn (S i) v) (S i)
              (set_insert (ip_address window_start) []) i in
          if (2 <=? length ip_addresses)%nat then
            let window_end := nth window_end_idx v window_start in
            ip_event user window_start window_end ip_addresses
              :: ip_scan user v fuel' (S window_end_idx)
          else ip_scan user v fuel' (S i)
      end
  end.

Definition ip_logins_of_user (user : string) (v : list LogEntry)
    : list SuspiciousEvent :=
  let user_logins := sort_by_timestamp v in
  ip_scan user user_logins (length user_logins) 0.

Definition detectMultipleIPAddresses (entries : list LogEntry)
    : list SuspiciousEvent :=
  flat_map (fun p => ip_logins_of_user (fst p) (snd p))
    (group_by_username SUCCESS entries).

(** *** detectAll *)

Definition detectAll (entries : list LogEntry) : list SuspiciousEvent :=
  let failed_logins := detectMultipleFailedLogins entries in
  let outside_hours := detectLoginsOutsideBusinessHours entries in
  let multiple_ips := detectMultipleIPAddresses entries in
  failed_logins ++ outside_hours ++ multiple_ips.

End Detectors.

(** ** Reading back the containers and the windows *)

(** [m[k]] without insertion: the vector stored at [k], empty if none. *)
Fixpoint map_find (k : string) (m : list (string * list LogEntry))
    : list LogEntry :=
  match m with
  | [] => []
  | (k', v) :: m' => if String.eqb k k' then v else map_find k m'
  end.

Definition keys_sorted (m : list (string * list LogEntry)) : Prop :=
  StronglySorted (fun a b => String.compare a b = Lt) (map fst m).

(** The records of [rest] that the inner loops accept before their [break]. *)
Fixpoint take_within (d : EventDetector) (window_start : LogEntry)
    (rest : list LogEntry) : list LogEntry :=
  match rest with
  | [] => []
  | e :: rest' =>
      if isWithinTimeWindow d (timestamp window_start) (timestamp e)
      then e :: take_within d window_start rest'
      else []
  end.

(** The records counted into the window anchored at index [i] of [v]. *)
Definition window_records (d : EventDetector) (v : list LogEntry) (i : nat)
    (window_start : LogEntry) : list LogEntry :=
  window_start :: take_within d window_start (skipn (S i) v).

(** The records of one status and one user, in input order. *)
Definition user_records (s : LoginStatus) (user : string)
    (entries : list LogEntry) : list LogEntry :=
  filter (fun e => LoginStatus_eqb (status e) s && String.eqb (username e) user)
    entries.

(** ** Sample inputs *)

Definition failed_at (base offset : Z) : LogEntry :=
  mkLogEntry (base + offset * ticks_per_minute) "alice" "10.0.0.1" FAILED.

Definition alice_seven_failures (base : Z) : list LogEntry :=
  map (failed_at base) [0; 1; 2; 3; 4; 5; 6].

Definition login_at (user ip : string) (st : LoginStatus) (minute : Z)
    : LogEntry :=
  mkLogEntry (minute * ticks_per_minute) user ip st.

Definition ten_failures : list LogEntry :=
  map (failed_at 0) [0; 1; 2; 3; 4; 5; 6; 7; 8; 9].

Definition threshold_three : EventDetector := mkEventDetector 3 10 8 18.

Definition two_failures : list LogEntry := [failed_at 0 0; failed_at 0 5].

Definition pairwise_within (d : EventDetector) (l : list LogEntry) : bool :=
  forallb (fun x => forallb (fun y =>
    isWithinTimeWindow d (timestamp x) (timestamp y)) l) l.

Definition two_logins_apart (minutes : Z) : list LogEntry :=
  [login_at "alice" "10.0.0.1" SUCCESS 0;
   login_at "alice" "10.0.0.2" SUCCESS minutes].

Definition three_logins_two_addresses : list LogEntry :=
  [login_at "alice" "10.0.0.2" SUCCESS 2;
   login_at "alice" "10.0.0.1" SUCCESS 1;
   login_at "alice" "10.0.0.2" SUCCESS 0].

Definition five_failures_five_addresses : list LogEntry :=
  [login_at "bob" "10.0.0.5" FAILED 4;
   login_at "bob" "10.0.0.1" FAILED 0;
   login_at "bob" "10.0.0.3" FAILED 2;
   login_at "bob" "10.0.0.2" FAILED 1;
   login_at "bob" "10.0.0.4" FAILED 3].

Definition three_logins_finding : SuspiciousEvent :=
  ip_event default_detector "alice" (login_at "alice" "10.0.0.2" SUCCESS 0)
    (login_at "alice" "10.0.0.2" SUCCESS 2) ["10.0.0.1"; "10.0.0.2"]%string.

Definition five_failures_finding : SuspiciousEvent :=
  failed_event default_detector "bob" (login_at "bob" "10.0.0.1" FAILED 0)
    (login_at "bob" "10.0.0.5" FAILED 4) 5.

(** ** Configuration (ConfigManager.h, ConfigManager.cpp) *)

Record Configuration : Type := mkConfiguration {
  failed_login_threshold : Z;
  time_window_minutes : Z;
  business_hour_start : Z;
  business_hour_end : Z;
  log_file_path : string;
  report_output_path : string
}.

(** [Configuration::Configuration()]. *)
Definition default_configuration : Configuration :=
  mkConfiguration 5 10 8 18 "logs/sample.log" "reports/report.txt".

Record ConfigManager : Type := mkConfigManager {
  config_ : Configuration;
  help_requested_ : bool
}.

(** [ConfigManager::ConfigManager()]. *)
Definition new_ConfigManager : ConfigManager :=
  mkConfigManager default_configuration false.

Definition getConfiguration (self : ConfigManager) : Configuration :=
  config_ self.

Definition isHelpRequested (self : ConfigManager) : bool :=
  help_requested_ self.

(** [config_ = config] on a manager. *)
Definition with_config (self : ConfigManager) (config : Configuration)
    : ConfigManager :=
  mkConfigManager config (help_requested_ self).

(** The assignments [config_.<member> = ...] of [parseCommandLineArgs]. *)
Definition set_log_file_path (c : Configuration) (path : string)
    : Configuration :=
  mkConfiguration (failed_login_threshold c) (time_window_minutes c)
    (business_hour_start c) (business_hour_end c) path
    (report_output_path c).

Definition set_report_output_path (c : Configuration) (path : string)
    : Configuration :=
  mkConfiguration (failed_login_threshold c) (time_window_minutes c)
    (business_hour_start c) (business_hour_end c) (log_file_path c) path.

Definition set_failed_login_threshold (c : Configuration) (threshold : Z)
    : Configuration :=
  mkConfiguration threshold (time_window_minutes c)
    (business_hour_start c) (business_hour_end c) (log_file_path c)
    (report_output_path c).

Definition set_time_window_minutes (c : Configuration) (window : Z)
    : Configuration :=
  mkConfiguration (failed_login_threshold c) window
    (business_hour_start c) (business_hour_end c) (log_file_path c)
    (report_output_path c).

Definition set_business_hours (c : Configuration) (start end_ : Z)
    : Configuration :=
  mkConfiguration (failed_login_threshold c) (time_window_minutes c)
    start end_ (log_file_path c) (report_output_path c).

(** [ConfigManager::validateConfiguration]. *)
Definition validateConfiguration (self : ConfigManager) : bool :=
  let c := config_ self in
  if failed_login_threshold c <=? 0 then false
  else if time_window_minutes c <=? 0 then false
  else if (business_hour_start c <? 0) || (23 <? business_hour_start c)
  then false
  else if (business_hour_end c <? 0) || (23 <? business_hour_end c)
  then false
  else if business_hour_end c <=? business_hour_start c then false
  else if String.eqb (log_file_path c) "" then false
  else if String.eqb (report_output_path c) "" then false
  else true.

(** [ConfigManager::setConfiguration]: the result and the manager after. *)
Definition setConfiguration (self : ConfigManager) (config : Configuration)
    : bool * ConfigManager :=
  let temp := config_ self in
  let self' := with_config self config in
  if negb (validateConfiguration self') then (false, with_config self' temp)
  else (true, self').

(** [std::isdigit] in the "C" locale. *)
Definition isdigit (c : ascii) : bool :=
  let n := nat_of_ascii c in (48 <=? n)%nat && (n <=? 57)%nat.

(** The loop [for (i = start_pos; i < str.length(); ++i)] of
    [parseInteger]: every character is a digit. *)
Fixpoint all_digits (s : string) : bool :=
  match s with
  | EmptyString => true
  | String c s' => isdigit c && all_digits s'
  end.

(** The value of a string of decimal digits, read from the left. *)
Fixpoint digits_value (acc : Z) (s : string) : Z :=
  match s with
  | EmptyString => acc
  | String c s' =>
      digits_value (10 * acc + (Z.of_nat (nat_of_ascii c) - 48)) s'
  end.

Definition INT_MIN : Z := -2147483648.
Definition INT_MAX : Z := 2147483647.

(** [std::istringstream iss(str); iss >> value;] with an [int] [value], on
    the strings [parseInteger] lets through: an optional ['-'] followed by
    decimal digits. libstdc++ reads a [long] and sets [failbit] when the
    number does not fit in an [int]; [None] is [iss.fail()]. *)
Definition extract_int (str : string) : option Z :=
  let v :=
    match str with
    | String c digits =>
        if Ascii.eqb c "-"%char then - digits_value 0 digits
        else digits_value 0 str
    | EmptyString => 0
    end in
  if (INT_MIN <=? v) && (v <=? INT_MAX) then Some v else None.

(** [ConfigManager::parseInteger]: [Some value] when it returns [true]
    (its [int& value] is not read by the callers on [false]). *)
Definition parseInteger (str : string) : option Z :=
  match str with
  | EmptyString => None
  | String c rest =>
      if Ascii.eqb c "-"%char && (String.length str =? 1)%nat then None
      else if negb (all_digits (if Ascii.eqb c "-"%char then rest else str))
      then None
      else extract_int str
  end.

(** [ConfigManager::parseBusinessHours]: [Some (start, end)] when it returns
    [true]. *)
Definition parseBusinessHours (hours_str : string) : option (Z * Z) :=
  match String.index 0 "-" hours_str with
  | None => None
  | Some dash_pos =>
      let start_str := String.substring 0 dash_pos hours_str in
      let end_str :=
        String.substring (S dash_pos)
          (String.length hours_str - S dash_pos) hours_str in
      match parseInteger start_str with
      | None => None
      | Some start =>
          match parseInteger end_str with
          | None => None
          | Some end_ =>
              if (start <? 0) || (23 <? start) || (end_ <? 0) || (23 <? end_)
              then None
              else if end_ <=? start then None
              else Some (start, end_)
          end
      end
  end.

(** The [for] loop of [ConfigManager::parseCommandLineArgs] over
    [argv[1..]]: [(Some b, self')] when it executes [return b],
    [(None, self')] when it runs to the end. *)
Fixpoint parse_args (args : list string) (self : ConfigManager)
    : option bool * ConfigManager :=
  match args with
  | [] => (None, self)
  | arg :: args' =>
      if String.eqb arg "--help" || String.eqb arg "-h" then
        (Some true, mkConfigManager (config_ self) true)
      else if String.eqb arg "--input" || String.eqb arg "-i" then
        match args' with
        | [] => (Some false, self)
        | path :: args'' =>
            parse_args args''
              (with_config self (set_log_file_path (config_ self) path))
        end
      else if String.eqb arg "--output" || String.eqb arg "-o" then
        match args' with
        | [] => (Some false, self)
        | path :: args'' =>
            parse_args args''
              (with_config self (set_report_output_path (config_ self) path))
        end
      else if String.eqb arg "--threshold" || String.eqb arg "-t" then
        match args' with
        | [] => (Some false, self)
        | value :: args'' =>
            match parseInteger value with
            | None => (Some false, self)
            | Some threshold =>
                parse_args args''
                  (with_config self
                     (set_failed_login_threshold (config_ self) threshold))
            end
        end
      else if String.eqb arg "--window" || String.eqb arg "-w" then
        match args' with
        | [] => (Some false, self)
        | value :: args'' =>
            match parseInteger value with
            | None => (Some false, self)
            | Some window =>
                parse_args args''
                  (with_config self
                     (set_time_window_minutes (config_ self) window))
            end
        end
      else if String.eqb arg "--hours" then
        match args' with
        | [] => (Some false, self)
        | value :: args'' =>
            match parseBusinessHours value with
            | None => (Some false, self)
            | Some (start, end_) =>
                parse_args args''
                  (with_config self
                     (set_business_hours (config_ self) start end_))
            end
        end
      else (Some false, self)
  end.

(** [ConfigManager::parseCommandLineArgs]; [argv] includes [argv[0]]. *)
Definition parseCommandLineArgs (self : ConfigManager) (argv : list string)
    : bool * ConfigManager :=
  let self := mkConfigManager (config_ self) false in
  match parse_args (tl argv) self with
  | (Some result, self') => (result, self')
  | (None, self') =>
      if negb (help_requested_ self') && negb (validateConfiguration self')
      then (false, self')
      else (true, self')
  end.

(** The [EventDetector] that [main] builds from the configuration. *)
Definition detector_of_configuration (config : Configuration)
    : EventDetector :=
  mkEventDetector (failed_login_threshold config) (time_window_minutes config)
    (business_hour_start config) (business_hour_end config).

(** ** Log parsing (LogParser.cpp) *)

(** [std::isspace] in the "C" locale: space, \t, \n, \v, \f, \r. *)
Definition isspace (c : ascii) : bool :=
  let n := nat_of_ascii c in (n =? 32)%nat || ((9 <=? n)%nat && (n <=? 13)%nat).

(** [std::toupper] in the "C" locale. *)
Definition toupper (c : ascii) : ascii :=
  let n := nat_of_ascii c in
  if (97 <=? n)%nat && (n <=? 122)%nat then ascii_of_nat (n - 32) else c.

Fixpoint drop_spaces (l : list ascii) : list ascii :=
  match l with
  | [] => []
  | c :: l' => if isspace c then drop_spaces l' else l
  end.

(** [trim]: the characters from the first non-space ([start]) up to the
    last non-space ([end]), or the empty string when [start < end] fails
    (all spaces). *)
Definition trim (str : string) : string :=
  string_of_list_ascii
    (rev (drop_spaces (rev (drop_spaces (list_ascii_of_string str))))).

(** [std::transform(..., std::toupper)]. *)
Fixpoint string_toupper (s : string) : string :=
  match s with
  | EmptyString => EmptyString
  | String c s' => String (toupper c) (string_toupper s')
  end.

(** [LogParser::parseStatus]. *)
Definition parseStatus (status_str : string) : LoginStatus :=
  let status_upper := string_toupper status_str in
  if String.eqb status_upper "SUCCESS" then SUCCESS
  else if String.eqb status_upper "FAILED" then FAILED
  else UNKNOWN.

(** An input stream: its unread characters and its [eofbit]. *)
Definition istream : Type := (string * bool)%type.

(** The characters up to [delim] (excluded), the characters after it, and
    whether [delim] was met. *)
Fixpoint read_until (delim : ascii) (s : string) : string * string * bool :=
  match s with
  | EmptyString => (EmptyString, EmptyString, false)
  | String c s' =>
      if Ascii.eqb c delim then (EmptyString, s', true)
      else
        let '(str, rest, found) := read_until delim s' in
        (String c str, rest, found)
  end.

(** [std::getline(is, str, delim)]: [None] when it sets [failbit], which
    happens when [eofbit] is already set (the sentry fails) or when no
    character is extracted; reaching the end without [delim] sets
    [eofbit]. *)
Definition getline (is : istream) (delim : ascii) : option (string * istream) :=
  let '(s, eof) := is in
  if eof then None
  else
    match s with
    | EmptyString => None
    | String _ _ =>
        let '(str, rest, found) := read_until delim s in
        Some (str, (rest, negb found))
    end.

Definition newline : ascii := "010"%char.

Section LogParser.

(** [LogParser::parseTimestamp] goes through [std::get_time] and
    [std::mktime], which read the local time zone of the machine. *)
Variable parseTimestamp : string -> option Z.

(** [LogParser::parseLogLine]. *)
Definition parseLogLine (line : string) : option LogEntry :=
  let ss : istream := (line, false) in
  match getline ss "|" with
  | None => None
  | Some (timestamp_str, ss) =>
  match getline ss "|" with
  | None => None
  | Some (username, ss) =>
  match getline ss "|" with
  | None => None
  | Some (ip_address, ss) =>
  match getline ss newline with
  | None => None
  | Some (status_str, _) =>
      let timestamp_str := trim timestamp_str in
      let username := trim username in
      let ip_address := trim ip_address in
      let status_str := trim status_str in
      if String.eqb timestamp_str "" || String.eqb username "" ||
         String.eqb ip_address "" || String.eqb status_str ""
      then None
      else
        match parseTimestamp timestamp_str with
        | None => None
        | Some timestamp =>
            let status := parseStatus status_str in
            Some (mkLogEntry timestamp username ip_address status)
        end
  end end end end.

(** The [while (std::getline(log_file, line))] loop of [main]: the valid
    entries, [line_number] and [invalid_entries]. Each turn consumes at
    least one character, so [length + 1] turns are enough. *)
Fixpoint load_log (fuel : nat) (log_file : istream)
    (log_entries : list LogEntry) (line_number invalid_entries : Z)
    : list LogEntry * Z * Z :=
  match fuel with
  | O => (log_entries, line_number, invalid_entries)
  | S fuel' =>
      match getline log_file newline with
      | None => (log_entries, line_number, invalid_entries)
      | Some (line, log_file') =>
          let line_number := line_number + 1 in
          if String.eqb line "" then
            load_log fuel' log_file' log_entries line_number invalid_entries
          else
            match parseLogLine line with
            | Some entry =>
                load_log fuel' log_file' (log_entries ++ [entry])
                  line_number invalid_entries
            | None =>
                load_log fuel' log_file' log_entries line_number
                  (invalid_entries + 1)
            end
      end
  end.

Definition load_log_file (contents : string) : list LogEntry * Z * Z :=
  load_log (S (String.length contents)) (contents, false) [] 0 0.

End LogParser.

(** ** Sample inputs of the command line and of the parser *)

(** A [parseTimestamp] for the sample lines: the one date they carry, read
    as the epoch. *)
Definition sample_parseTimestamp (s : string) : option Z :=
  if String.eqb s "2026-01-18 08:45:12" then Some 0 else None.

Definition sample_line : string := "2026-01-18 08:45:12|alice|10.0.0.1|FAILED".

(** ** One implementation of the [std::sort] contract

    A merge sort on timestamps; the witnesses instantiate the detectors with
    it. *)
Module TimestampOrder <: TotalLeBool'.
Definition t := LogEntry.
Definition leb (a b : LogEntry) : bool := timestamp a <=? timestamp b.
Lemma leb_total : forall a b, leb a b = true \/ leb b a = true.
Proof. intros a b; unfold leb; rewrite !Z.leb_le; lia. Qed.
End TimestampOrder.

Module TimestampSort := Sort TimestampOrder.

(** ** Strings: the order of [std::string] *)

Lemma ascii_compare_refl : forall a, Ascii.compare a a = Eq.
Proof. intro a; unfold Ascii.compare; apply N.compare_refl. Qed.

Lemma string_compare_refl : forall s, String.compare s s = Eq.
Proof.
  induction s as [|c s IH]; simpl; [reflexivity|].
  rewrite ascii_compare_refl; exact IH.
Qed.

Lemma ascii_compare_lt_trans : forall a b c,
  Ascii.compare a b = Lt -> Ascii.compare b c = Lt -> Ascii.compare a c = Lt.
Proof.
  unfold Ascii.compare; intros a b c; rewrite !N.compare_lt_iff; lia.
Qed.

Lemma string_compare_lt_trans : forall x y z,
  String.compare x y = Lt -> String.compare y z = Lt -> String.compare x z = Lt.
Proof.
  induction x as [|a x IH]; intros [|b y] [|c z]; simpl; try congruence.
  destruct (Ascii.compare a b) eqn:Hab; try congruence;
  destruct (Ascii.compare b c) eqn:Hbc; try congruence; intros H1 H2.
  - apply Ascii.compare_eq_iff in Hab, Hbc; subst.
    rewrite ascii_compare_refl; eauto.
  - apply Ascii.compare_eq_iff in Hab; subst; rewrite Hbc; reflexivity.
  - apply Ascii.compare_eq_iff in Hbc; subst; rewrite Hab; reflexivity.
  - rewrite (ascii_compare_lt_trans _ _ _ Hab Hbc); reflexivity.
Qed.

Lemma string_compare_gt_lt : forall x y,
  String.compare x y = Gt -> String.compare y x = Lt.
Proof.
  intros x y H; rewrite String.compare_antisym, H; reflexivity.
Qed.

Lemma string_compare_lt_neq : forall x y, String.compare x y = Lt -> x <> y.
Proof. intros x y H ->; rewrite string_compare_refl in H; discriminate. Qed.

(** ** The ordered map *)

Lemma map_push_keys : forall k e m k'',
  In k'' (map fst (map_push k e m)) <-> k'' = k \/ In k'' (map fst m).
Proof.
  intros k e m k''; induction m as [|[k' v] m IH]; simpl;
    [intuition congruence|].
  destruct (String.compare k k') eqn:Hc; simpl.
  - apply String.compare_eq_iff in Hc; subst; intuition congruence.
  - intuition congruence.
  - rewrite IH; intuition congruence.
Qed.

Lemma map_push_sorted : forall k e m,
  keys_sorted m -> keys_sorted (map_push k e m).
Proof.
  unfold keys_sorted; intros k e m; induction m as [|[k' v] m IH]; simpl;
    intro Hs.
  - repeat constructor.
  - apply StronglySorted_inv in Hs as [Hs Hall].
    destruct (String.compare k k') eqn:Hc; simpl.
    + apply String.compare_eq_iff in Hc; subst; constructor; assumption.
    + constructor; [constructor; assumption|].
      constructor; [assumption|].
      rewrite Forall_forall in *; intros x Hx.
      eapply string_compare_lt_trans; eauto.
    + constructor; [apply IH; assumption|].
      rewrite Forall_forall in *; intros x Hx.
      apply map_push_keys in Hx as [->|Hx]; auto.
      apply string_compare_gt_lt; assumption.
Qed.

Lemma map_find_notin : forall k m,
  ~ In k (map fst m) -> map_find k m = [].
Proof.
  intros k m; induction m as [|[k' v] m IH]; simpl; intros Hn; [reflexivity|].
  destruct (String.eqb_spec k k'); [subst; tauto|].
  apply IH; tauto.
Qed.

Lemma map_find_push : forall u k e m,
  keys_sorted m ->
  map_find u (map_push k e m) =
  if String.eqb u k then map_find u m ++ [e] else map_find u m.
Proof.
  unfold keys_sorted; intros u k e m; induction m as [|[k' v] m IH]; simpl;
    intro Hs.
  - destruct (String.eqb u k); reflexivity.
  - apply StronglySorted_inv in Hs as [Hs Hall].
    destruct (String.compare k k') eqn:Hc; simpl.
    + apply String.compare_eq_iff in Hc; subst.
      destruct (String.eqb u k'); reflexivity.
    + destruct (String.eqb_spec u k); simpl; [subst|reflexivity].
      destruct (String.eqb_spec k k');
        [subst; rewrite string_compare_refl in Hc; discriminate|].
      rewrite map_find_notin; [reflexivity|].
      rewrite Forall_forall in Hall; intro Hin.
      apply (string_compare_lt_neq k k); [|reflexivity].
      eapply string_compare_lt_trans; eauto.
    + rewrite IH by assumption.
      destruct (String.eqb_spec u k), (String.eqb_spec u k'); subst;
        try reflexivity.
      rewrite string_compare_refl in Hc; discriminate.
Qed.

Lemma group_by_username_fold : forall s entries m,
  keys_sorted m ->
  keys_sorted
    (fold_left (fun m entry =>
       if LoginStatus_eqb (status entry) s
       then map_push (username entry) entry m else m) entries m) /\
  forall u,
  map_find u
    (fold_left (fun m entry =>
       if LoginStatus_eqb (status entry) s
       then map_push (username entry) entry m else m) entries m) =
  map_find u m ++ user_records s u entries.
Proof.
  intros s entries; induction entries as [|e es IH]; intros m Hm; simpl.
  - split; [assumption|]; intro u; rewrite app_nil_r; reflexivity.
  - destruct (LoginStatus_eqb (status e) s) eqn:Hst; simpl.
    + destruct (IH (map_push (username e) e m)) as [H1 H2];
        [apply map_push_sorted; assumption|].
      split; [assumption|]; intro u.
      rewrite H2, map_find_push by assumption.
      rewrite String.eqb_sym.
      destruct (String.eqb (username e) u); simpl;
        [rewrite <- app_assoc; reflexivity|reflexivity].
    + destruct (IH m Hm) as [H1 H2]; split; [assumption|]; intro u.
      rewrite H2; reflexivity.
Qed.

Lemma group_by_username_sorted : forall s entries,
  keys_sorted (group_by_username s entries).
Proof.
  intros; apply group_by_username_fold; constructor.
Qed.

Lemma group_by_username_find : forall s entries u,
  map_find u (group_by_username s entries) = user_records s u entries.
Proof.
  intros; unfold group_by_username.
  rewrite (proj2 (group_by_username_fold s entries [] ltac:(constructor)) u).
  reflexivity.
Qed.

(** ** The findings of one user *)

Lemma filter_keep_all {A} (f : A -> bool) (l : list A) :
  (forall x, In x l -> f x = true) -> filter f l = l.
Proof.
  induction l as [|x l IH]; simpl; intros H; [reflexivity|].
  rewrite H by auto; f_equal; auto.
Qed.

Lemma filter_drop_all {A} (f : A -> bool) (l : list A) :
  (forall x, In x l -> f x = false) -> filter f l = [].
Proof.
  induction l as [|x l IH]; simpl; intros H; [reflexivity|].
  rewrite H by auto; auto.
Qed.

Section PerUser.

Variable f : string -> list LogEntry -> list SuspiciousEvent.
Hypothesis f_username : forall k v ev,
  In ev (f k v) -> SuspiciousEvent.username ev = k.
Hypothesis f_nil : forall k, f k [] = [].

Lemma flat_map_findings_of_user : forall m u,
  keys_sorted m ->
  filter (fun ev => String.eqb (SuspiciousEvent.username ev) u)
    (flat_map (fun p => f (fst p) (snd p)) m) = f u (map_find u m).
Proof.
  unfold keys_sorted; intros m u; induction m as [|[k v] m IH]; simpl;
    intros Hs.
  - symmetry; apply f_nil.
  - apply StronglySorted_inv in Hs as [Hs Hall].
    rewrite filter_app.
    destruct (String.eqb_spec u k) as [->|Hne].
    + rewrite filter_keep_all.
      2:{ intros ev Hev; rewrite (f_username _ _ _ Hev), String.eqb_refl;
          reflexivity. }
      rewrite filter_drop_all; [apply app_nil_r|].
      intros ev Hev; apply in_flat_map in Hev as [[k' v'] [Hp Hev]].
      rewrite (f_username _ _ _ Hev); simpl.
      apply String.eqb_neq; intros Heq.
      apply (in_map fst) in Hp; simpl in Hp; rewrite Heq in Hp.
      rewrite Forall_forall in Hall.
      specialize (Hall _ Hp); rewrite string_compare_refl in Hall;
        discriminate.
    + rewrite filter_drop_all; [simpl; auto|].
      intros ev Hev; rewrite (f_username _ _ _ Hev).
      apply String.eqb_neq; congruence.
Qed.

Lemma in_flat_map_findings : forall m ev,
  keys_sorted m ->
  In ev (flat_map (fun p => f (fst p) (snd p)) m) ->
  In ev (f (SuspiciousEvent.username ev)
           (map_find (SuspiciousEvent.username ev) m)).
Proof.
  intros m ev Hs Hin.
  rewrite <- flat_map_findings_of_user by assumption.
  apply filter_In; split; [assumption|apply String.eqb_refl].
Qed.

End PerUser.

(** ** The scans of one sorted vector *)

Section Scans.

Variable d : EventDetector.

Lemma count_within_window_end : forall ws rest j c idx,
  (idx <= j)%nat -> (idx <= snd (count_within_window d ws rest j c idx))%nat.
Proof.
  intros ws rest; induction rest as [|e rest IH]; intros j c idx Hle; simpl;
    [lia|].
  destruct (isWithinTimeWindow d (timestamp ws) (timestamp e)); simpl;
    [|lia].
  specialize (IH (S j) (c + 1) j ltac:(lia)); lia.
Qed.

Lemma count_within_window_le : forall ws rest j c idx,
  fst (count_within_window d ws rest j c idx) <= c + Z.of_nat (length rest).
Proof.
  intros ws rest; induction rest as [|e rest IH]; intros j c idx; simpl;
    [lia|].
  destruct (isWithinTimeWindow d (timestamp ws) (timestamp e)); simpl;
    [specialize (IH (S j) (c + 1) j)|]; lia.
Qed.

Lemma count_within_window_all : forall ws rest j c idx,
  (forall e, In e rest ->
     isWithinTimeWindow d (timestamp ws) (timestamp e) = true) ->
  count_within_window d ws rest j c idx =
  (c + Z.of_nat (length rest),
   match rest with [] => idx | _ => (j + length rest - 1)%nat end).
Proof.
  intros ws rest; induction rest as [|e rest IH]; intros j c idx Hall; simpl.
  - f_equal; lia.
  - rewrite Hall by (left; reflexivity).
    rewrite IH by (intros; apply Hall; right; assumption).
    destruct rest; simpl; f_equal; lia.
Qed.

Lemma failed_scan_past_end : forall u v fuel i,
  (length v <= i)%nat -> failed_scan d u v fuel i = [].
Proof.
  intros u v [|fuel] i Hle; simpl; [reflexivity|].
  apply nth_error_None in Hle; rewrite Hle; reflexivity.
Qed.

(** The fuel [size()] of the outer loop is enough: more changes nothing. *)
Lemma failed_scan_fuel : forall u v f1 f2 i,
  (length v <= i + f1)%nat -> (length v <= i + f2)%nat ->
  failed_scan d u v f1 i = failed_scan d u v f2 i.
Proof.
  intros u v f1; induction f1 as [|f1 IH]; intros f2 i H1 H2.
  - rewrite failed_scan_past_end by lia.
    symmetry; apply failed_scan_past_end; lia.
  - destruct f2 as [|f2].
    + rewrite (failed_scan_past_end u v 0) by lia.
      apply failed_scan_past_end; lia.
    + cbn [failed_scan]; destruct (nth_error v i) as [ws|] eqn:Hi;
        [|reflexivity].
      destruct (count_within_window d ws (skipn (S i) v) (S i) 1 i)
        as [count idx] eqn:Hc.
      pose proof (count_within_window_end ws (skipn (S i) v) (S i) 1 i)
        as Hidx; rewrite Hc in Hidx; simpl in Hidx.
      specialize (Hidx ltac:(lia)).
      destruct (failed_login_threshold_ d <=? count).
      * f_equal; apply IH; lia.
      * apply IH; lia.
Qed.

(** No anchor reaches the threshold when the vector is shorter than it. *)
Lemma failed_scan_short : forall u v fuel i,
  Z.of_nat (length v) < failed_login_threshold_ d ->
  failed_scan d u v fuel i = [].
Proof.
  intros u v fuel; induction fuel as [|fuel IH]; intros i Hlt;
    cbn [failed_scan]; [reflexivity|].
  destruct (nth_error v i) as [ws|] eqn:Hi; [|reflexivity].
  assert (Hlen : (i < length v)%nat)
    by (apply nth_error_Some; rewrite Hi; discriminate).
  pose proof (count_within_window_le ws (skipn (S i) v) (S i) 1 i) as Hle.
  destruct (count_within_window d ws (skipn (S i) v) (S i) 1 i)
    as [count idx]; cbn [fst] in Hle.
  rewrite length_skipn in Hle.
  replace (failed_login_threshold_ d <=? count) with false
    by (symmetry; apply Z.leb_gt; lia).
  apply IH; assumption.
Qed.

(** A vector whose records all lie in the window of its first one gives one
    finding for the whole vector. *)
Lemma failed_scan_cluster : forall u ws rest,
  (forall e, In e rest ->
     isWithinTimeWindow d (timestamp ws) (timestamp e) = true) ->
  failed_login_threshold_ d <= Z.of_nat (length (ws :: rest)) ->
  failed_scan d u (ws :: rest) (length (ws :: rest)) 0 =
  [failed_event d u ws (nth (length rest) (ws :: rest) ws)
     (Z.of_nat (length (ws :: rest)))].
Proof.
  intros u ws rest Hall Hthr.
  cbn [failed_scan length nth_error skipn].
  rewrite count_within_window_all by assumption.
  replace (match rest with [] => 0%nat | _ => (1 + length rest - 1)%nat end)
    with (length rest) by (destruct rest; simpl; lia).
  replace (failed_login_threshold_ d <=? 1 + Z.of_nat (length rest))
    with true by (symmetry; apply Z.leb_le; simpl length in Hthr; lia).
  rewrite failed_scan_past_end by (simpl; lia).
  f_equal; f_equal; simpl length; lia.
Qed.

Lemma failed_scan_in : forall u v fuel i ev,
  In ev (failed_scan d u v fuel i) ->
  exists i' ws count idx,
    nth_error v i' = Some ws /\
    count_within_window d ws (skipn (S i') v) (S i') 1 i' = (count, idx) /\
    failed_login_threshold_ d <= count /\
    ev = failed_event d u ws (nth idx v ws) count.
Proof.
  intros u v fuel; induction fuel as [|fuel IH]; intros i ev Hin;
    cbn [failed_scan] in Hin; [contradiction|].
  destruct (nth_error v i) as [ws|] eqn:Hi; [|contradiction].
  destruct (count_within_window d ws (skipn (S i) v) (S i) 1 i)
    as [count idx] eqn:Hc.
  destruct (failed_login_threshold_ d <=? count) eqn:Hle.
  - destruct Hin as [<-|Hin]; [|eapply IH; eassumption].
    exists i, ws, count, idx; repeat split; auto; apply Z.leb_le; assumption.
  - eapply IH; eassumption.
Qed.

End Scans.

(** ** The ordered set of addresses *)

Definition string_lt (a b : string) : Prop := String.compare a b = Lt.

Lemma set_insert_in : forall x s a,
  In a (set_insert x s) <-> a = x \/ In a s.
Proof.
  intros x s a; induction s as [|y s IH]; simpl; [intuition congruence|].
  destruct (String.compare x y) eqn:Hc; simpl.
  - apply String.compare_eq_iff in Hc; subst; intuition congruence.
  - intuition congruence.
  - rewrite IH; intuition congruence.
Qed.

Lemma set_insert_sorted : forall x s,
  StronglySorted string_lt s -> StronglySorted string_lt (set_insert x s).
Proof.
  unfold string_lt; intros x s; induction s as [|y s IH]; simpl; intros Hs.
  - repeat constructor.
  - apply StronglySorted_inv in Hs as [Hs Hall] ; rewrite Forall_forall in Hall.
    destruct (String.compare x y) eqn:Hc.
    + constructor; [assumption|]; rewrite Forall_forall; assumption.
    + constructor; [constructor; [assumption|]; rewrite Forall_forall; assumption|].
      constructor; [assumption|]; rewrite Forall_forall; intros z Hz.
      eapply string_compare_lt_trans; eauto.
    + constructor; [apply IH; assumption|]; rewrite Forall_forall.
      intros z Hz; apply set_insert_in in Hz as [->|Hz]; auto.
      apply string_compare_gt_lt; assumption.
Qed.

Definition insert_ips (s : list string) (rs : list LogEntry) : list string :=
  fold_left (fun s r => set_insert (ip_address r) s) rs s.

Lemma insert_ips_in : forall rs s a,
  In a (insert_ips s rs) <-> In a s \/ exists r, In r rs /\ ip_address r = a.
Proof.
  unfold insert_ips; induction rs as [|r rs IH]; intros s a; simpl.
  - split; [tauto|]; intros [H|[r [[] _]]]; assumption.
  - rewrite IH, set_insert_in; split.
    + intros [[->|H]|[r' [H1 H2]]]; eauto.
    + intros [H|[r' [[<-|H1] H2]]]; eauto 6.
Qed.

Lemma insert_ips_sorted : forall rs s,
  StronglySorted string_lt s -> StronglySorted string_lt (insert_ips s rs).
Proof.
  unfold insert_ips; induction rs as [|r rs IH]; intros s Hs; simpl;
    [assumption|].
  apply IH, set_insert_sorted; assumption.
Qed.

Section IpScans.

Variable d : EventDetector.

Lemma collect_ips_within_window_set : forall ws rest j s idx,
  fst (collect_ips_within_window d ws rest j s idx) =
  insert_ips s (take_within d ws rest).
Proof.
  intros ws rest; induction rest as [|e rest IH]; intros j s idx; simpl;
    [reflexivity|].
  destruct (isWithinTimeWindow d (timestamp ws) (timestamp e)); simpl;
    [apply IH|reflexivity].
Qed.

Lemma collect_ips_within_window_end : forall ws rest j s idx,
  (idx <= j)%nat ->
  (idx <= snd (collect_ips_within_window d ws rest j s idx))%nat.
Proof.
  intros ws rest; induction rest as [|e rest IH]; intros j s idx Hle; simpl;
    [lia|].
  destruct (isWithinTimeWindow d (timestamp ws) (timestamp e)); simpl;
    [|lia].
  specialize (IH (S j) (set_insert (ip_address e) s) j ltac:(lia)); lia.
Qed.

Lemma ip_scan_past_end : forall u v fuel i,
  (length v <= i)%nat -> ip_scan d u v fuel i = [].
Proof.
  intros u v [|fuel] i Hle; cbn [ip_scan]; [reflexivity|].
  apply nth_error_None in Hle; rewrite Hle; reflexivity.
Qed.

(** As for [failed_scan], the fuel [size()] is enough. *)
Lemma ip_scan_fuel : forall u v f1 f2 i,
  (length v <= i + f1)%nat -> (length v <= i + f2)%nat ->
  ip_scan d u v f1 i = ip_scan d u v f2 i.
Proof.
  intros u v f1; induction f1 as [|f1 IH]; intros f2 i H1 H2.
  - rewrite ip_scan_past_end by lia.
    symmetry; apply ip_scan_past_end; lia.
  - destruct f2 as [|f2].
    + rewrite (ip_scan_past_end u v 0) by lia.
      apply ip_scan_past_end; lia.
    + cbn [ip_scan]; destruct (nth_error v i) as [ws|] eqn:Hi;
        [|reflexivity].
      destruct (collect_ips_within_window d ws (skipn (S i) v) (S i)
                  (set_insert (ip_address ws) []) i) as [ips idx] eqn:Hc.
      pose proof (collect_ips_within_window_end ws (skipn (S i) v) (S i)
                    (set_insert (ip_address ws) []) i) as Hidx.
      rewrite Hc in Hidx; simpl in Hidx; specialize (Hidx ltac:(lia)).
      destruct (2 <=? length ips)%nat.
      * f_equal; apply IH; lia.
      * apply IH; lia.
Qed.

Lemma ip_scan_in : forall u v fuel i ev,
  In ev (ip_scan d u v fuel i) ->
  exists i' ws ips idx,
    nth_error v i' = Some ws /\
    collect_ips_within_window d ws (skipn (S i') v) (S i')
      (set_insert (ip_address ws) []) i' = (ips, idx) /\
    (2 <= length ips)%nat /\
    ev = ip_event d u ws (nth idx v ws) ips.
Proof.
  intros u v fuel; induction fuel as [|fuel IH]; intros i ev Hin;
    cbn [ip_scan] in Hin; [contradiction|].
  destruct (nth_error v i) as [ws|] eqn:Hi; [|contradiction].
  destruct (collect_ips_within_window d ws (skipn (S i) v) (S i)
              (set_insert (ip_address ws) []) i) as [ips idx] eqn:Hc.
  destruct (2 <=? length ips)%nat eqn:Hle.
  - destruct Hin as [<-|Hin]; [|eapply IH; eassumption].
    exists i, ws, ips, idx; repeat split; auto; apply Nat.leb_le; assumption.
  - eapply IH; eassumption.
Qed.

End IpScans.

(** ** The window test *)

Lemma ticks_per_minute_pos : 0 < ticks_per_minute.
Proof. unfold ticks_per_minute; lia. Qed.

Lemma isWithinTimeWindow_abs : forall d t1 t2,
  isWithinTimeWindow d t1 t2 =
  (Z.quot (Z.abs (t1 - t2)) ticks_per_minute <=? time_window_minutes_ d).
Proof.
  intros d t1 t2; unfold isWithinTimeWindow.
  destruct (Z.ltb_spec t2 t1).
  - rewrite Z.abs_eq by lia; reflexivity.
  - rewrite Z.abs_neq by lia.
    replace (- (t1 - t2)) with (t2 - t1) by lia; reflexivity.
Qed.

Lemma isWithinTimeWindow_shift : forall d b x y,
  isWithinTimeWindow d (b + x) (b + y) = isWithinTimeWindow d x y.
Proof.
  intros; rewrite !isWithinTimeWindow_abs.
  replace (b + x - (b + y)) with (x - y) by lia; reflexivity.
Qed.

Lemma isWithinTimeWindow_comm : forall d t1 t2,
  isWithinTimeWindow d t1 t2 = isWithinTimeWindow d t2 t1.
Proof.
  intros; rewrite !isWithinTimeWindow_abs.
  replace (Z.abs (t2 - t1)) with (Z.abs (t1 - t2)); [reflexivity|].
  rewrite <- Z.abs_opp; f_equal; lia.
Qed.

Lemma isWithinTimeWindow_minutes : forall d t1 t2 k,
  0 <= k -> Z.abs (t1 - t2) = k * ticks_per_minute ->
  isWithinTimeWindow d t1 t2 = (k <=? time_window_minutes_ d).
Proof.
  intros d t1 t2 k Hk Habs; rewrite isWithinTimeWindow_abs, Habs.
  rewrite Z.quot_mul; [reflexivity|unfold ticks_per_minute; lia].
Qed.

(** ** Sorted vectors *)

Definition timestamp_le (a b : LogEntry) : Prop := timestamp a <= timestamp b.

Lemma Sorted_weaken {A} (R R' : A -> A -> Prop) (l : list A) :
  (forall x y, R x y -> R' x y) -> Sorted R l -> Sorted R' l.
Proof.
  intros HR Hs; induction Hs as [|x l Hs IH Hd]; constructor; [assumption|].
  destruct Hd; constructor; auto.
Qed.

Lemma sorted_head_min : forall h l,
  Sorted timestamp_le (h :: l) ->
  forall y, In y (h :: l) -> timestamp h <= timestamp y.
Proof.
  intros h l Hs y Hy.
  apply Sorted_StronglySorted in Hs;
    [|intros a b c Hab Hbc; unfold timestamp_le in *; lia].
  apply StronglySorted_inv in Hs as [_ Hall]; rewrite Forall_forall in Hall.
  destruct Hy as [<-|Hy]; [lia|apply Hall; assumption].
Qed.

Lemma sorted_last_max : forall l h,
  Sorted timestamp_le (h :: l) ->
  forall y, In y (h :: l) -> timestamp y <= timestamp (nth (length l) (h :: l) h).
Proof.
  induction l as [|h' l IH]; intros h Hs y Hy.
  - destruct Hy as [<-|[]]; simpl; lia.
  - change (nth (length (h' :: l)) (h :: h' :: l) h)
      with (nth (length l) (h' :: l) h).
    rewrite (nth_indep _ h h') by (simpl; lia).
    pose proof (Sorted_inv Hs) as [Hs' Hd].
    specialize (IH h' Hs').
    destruct Hy as [<-|Hy]; [|apply IH; assumption].
    apply HdRel_inv in Hd; unfold timestamp_le in Hd.
    specialize (IH h' (or_introl eq_refl)); lia.
Qed.

Lemma merge_sort_perm : forall l, Permutation (TimestampSort.sort l) l.
Proof. intro l; symmetry; apply TimestampSort.Permuted_sort. Qed.

Lemma merge_sort_sorted : forall l,
  Sorted timestamp_le (TimestampSort.sort l).
Proof.
  intro l; eapply Sorted_weaken; [|apply TimestampSort.Sorted_sort].
  unfold timestamp_le, TimestampOrder.leb; intros x y H; apply Z.leb_le; exact H.
Qed.

(** ** Claims about the detectors *)

Section Claims.

(** Any [std::sort] with the comparator [a.timestamp < b.timestamp]. *)
Variable sort_by_timestamp : list LogEntry -> list LogEntry.
Hypothesis sort_perm : forall l, Permutation (sort_by_timestamp l) l.
Hypothesis sort_sorted : forall l, Sorted timestamp_le (sort_by_timestamp l).

Lemma sort_nil : sort_by_timestamp [] = [].
Proof. apply Permutation_nil; symmetry; apply sort_perm. Qed.

Lemma failed_logins_of_user_username : forall d k v ev,
  In ev (failed_logins_of_user sort_by_timestamp d k v) ->
  SuspiciousEvent.username ev = k.
Proof.
  unfold failed_logins_of_user; intros d k v ev Hin.
  apply failed_scan_in in Hin as (i & ws & count & idx & _ & _ & _ & ->).
  reflexivity.
Qed.

Lemma ip_logins_of_user_username : forall d k v ev,
  In ev (ip_logins_of_user sort_by_timestamp d k v) ->
  SuspiciousEvent.username ev = k.
Proof.
  unfold ip_logins_of_user; intros d k v ev Hin.
  apply ip_scan_in in Hin as (i & ws & ips & idx & _ & _ & _ & ->).
  reflexivity.
Qed.

(** The findings of [detectMultipleFailedLogins] for one user are those of
    the scan of that user's failed logins. *)
Lemma failed_findings_of_user : forall d entries u,
  filter (fun ev => String.eqb (SuspiciousEvent.username ev) u)
    (detectMultipleFailedLogins sort_by_timestamp d entries) =
  failed_logins_of_user sort_by_timestamp d u
    (user_records FAILED u entries).
Proof.
  intros d entries u; unfold detectMultipleFailedLogins.
  rewrite flat_map_findings_of_user.
  - rewrite group_by_username_find; reflexivity.
  - apply failed_logins_of_user_username.
  - intro k; unfold failed_logins_of_user; rewrite sort_nil; reflexivity.
  - apply group_by_username_sorted.
Qed.

Lemma ip_findings_of_user : forall d entries u,
  filter (fun ev => String.eqb (SuspiciousEvent.username ev) u)
    (detectMultipleIPAddresses sort_by_timestamp d entries) =
  ip_logins_of_user sort_by_timestamp d u (user_records SUCCESS u entries).
Proof.
  intros d entries u; unfold detectMultipleIPAddresses.
  rewrite flat_map_findings_of_user.
  - rewrite group_by_username_find; reflexivity.
  - apply ip_logins_of_user_username.
  - intro k; unfold ip_logins_of_user; rewrite sort_nil; reflexivity.
  - apply group_by_username_sorted.
Qed.

(** A group whose records are pairwise in the window and at least the
    threshold in number gives exactly one finding, counting all of them. *)
Lemma failed_logins_of_user_cluster : forall d u uf,
  uf <> [] ->
  (forall x y, In x uf -> In y uf ->
     isWithinTimeWindow d (timestamp x) (timestamp y) = true) ->
  failed_login_threshold_ d <= Z.of_nat (length uf) ->
  exists h rest,
    sort_by_timestamp uf = h :: rest /\
    failed_logins_of_user sort_by_timestamp d u uf =
    [failed_event d u h (nth (length rest) (h :: rest) h)
       (Z.of_nat (length uf))].
Proof.
  intros d u uf Hne Hall Hthr.
  pose proof (sort_perm uf) as Hp.
  destruct (sort_by_timestamp uf) as [|h rest] eqn:Hs.
  - apply Permutation_nil in Hp; congruence.
  - exists h, rest; split; [reflexivity|].
    unfold failed_logins_of_user; rewrite Hs.
    rewrite <- (Permutation_length Hp) in Hthr |- *.
    apply failed_scan_cluster; [|assumption].
    intros e He; apply Hall; eapply Permutation_in; eauto; simpl; auto.
Qed.

(** C1: a user whose failed logins are exactly twice the threshold in
    number, all pairwise within the window, gets exactly one
    failed-login finding (counting all of them), because on a report the
    anchor moves to the index after the last record counted. *)
Theorem failed_logins_double_threshold_one_finding :
  forall d entries u,
  0 < failed_login_threshold_ d ->
  Z.of_nat (length (user_records FAILED u entries)) =
    2 * failed_login_threshold_ d ->
  (forall x y, In x (user_records FAILED u entries) ->
     In y (user_records FAILED u entries) ->
     isWithinTimeWindow d (timestamp x) (timestamp y) = true) ->
  (exists ev,
     filter (fun ev => String.eqb (SuspiciousEvent.username ev) u)
       (detectMultipleFailedLogins sort_by_timestamp d entries) = [ev] /\
     SuspiciousEvent.event_count ev = 2 * failed_login_threshold_ d) /\
  (forall v fuel i ws count idx,
     nth_error v i = Some ws ->
     count_within_window d ws (skipn (S i) v) (S i) 1 i = (count, idx) ->
     failed_login_threshold_ d <= count ->
     failed_scan d u v (S fuel) i =
     failed_event d u ws (nth idx v ws) count
       :: failed_scan d u v fuel (S idx)).
Proof.
  intros d entries u Hthr Hlen Hall; split.
  - rewrite failed_findings_of_user.
    assert (Hne : user_records FAILED u entries <> [])
      by (intros Heq; rewrite Heq in Hlen; cbn [length] in Hlen; lia).
    destruct (failed_logins_of_user_cluster d u (user_records FAILED u entries)
                Hne Hall ltac:(lia)) as (h & rest & _ & ->).
    eexists; split; [reflexivity|]; exact Hlen.
  - intros v fuel i ws count idx Hi Hc Hle.
    cbn [failed_scan]; rewrite Hi, Hc.
    replace (failed_login_threshold_ d <=? count) with true
      by (symmetry; apply Z.leb_le; assumption).
    reflexivity.
Qed.

Lemma alice_seven_failures_within : forall base x y,
  In x (alice_seven_failures base) -> In y (alice_seven_failures base) ->
  isWithinTimeWindow default_detector (timestamp x) (timestamp y) = true.
Proof.
  intros base x y Hx Hy.
  apply in_map_iff in Hx as (i & <- & Hi), Hy as (j & <- & Hj).
  cbn [timestamp failed_at]; rewrite isWithinTimeWindow_shift.
  assert (Hb : forallb (fun i => forallb (fun j =>
                 isWithinTimeWindow default_detector (i * ticks_per_minute)
                   (j * ticks_per_minute)) [0; 1; 2; 3; 4; 5; 6])
               [0; 1; 2; 3; 4; 5; 6] = true) by reflexivity.
  rewrite forallb_forall in Hb; specialize (Hb i Hi).
  rewrite forallb_forall in Hb; apply Hb; assumption.
Qed.

Lemma alice_seven_failures_offsets : forall base x,
  In x (alice_seven_failures base) ->
  base <= timestamp x <= base + 6 * ticks_per_minute.
Proof.
  intros base x Hx; apply in_map_iff in Hx as (k & <- & Hk).
  cbn [timestamp failed_at]; pose proof ticks_per_minute_pos.
  simpl in Hk; intuition (subst; lia).
Qed.

(** C2 (as the code computes it): seven failed logins of one user at
    minute offsets 0..6 from any base, with threshold 5 and a 10-minute
    window, give exactly one finding, spanning offsets 0 to 6, whose count
    is 7 (every record within the window of the anchor is counted). *)
Theorem seven_failures_one_finding_count_seven : forall base,
  exists ev,
    detectMultipleFailedLogins sort_by_timestamp default_detector
      (alice_seven_failures base) = [ev] /\
    SuspiciousEvent.event_count ev = 7 /\
    SuspiciousEvent.username ev = "alice"%string /\
    SuspiciousEvent.first_occurrence ev = base /\
    SuspiciousEvent.last_occurrence ev = base + 6 * ticks_per_minute.
Proof.
  intro base.
  assert (Hg : group_by_username FAILED (alice_seven_failures base) =
               [("alice"%string, alice_seven_failures base)])
    by reflexivity.
  unfold detectMultipleFailedLogins; rewrite Hg; cbn [flat_map fst snd].
  destruct (failed_logins_of_user_cluster default_detector "alice"
              (alice_seven_failures base)) as (h & rest & Hs & ->).
  - discriminate.
  - apply alice_seven_failures_within.
  - vm_compute; discriminate.
  - pose proof (sort_sorted (alice_seven_failures base)) as Hsorted.
    rewrite Hs in Hsorted.
    assert (Hin : forall y, In y (h :: rest) -> In y (alice_seven_failures base))
      by (intros y Hy; rewrite <- Hs in Hy;
          eapply Permutation_in; [apply sort_perm|exact Hy]).
    assert (H0 : In (failed_at base 0) (h :: rest))
      by (rewrite <- Hs; eapply Permutation_in;
          [symmetry; apply sort_perm|apply in_map; simpl; tauto]).
    assert (H6 : In (failed_at base 6) (h :: rest))
      by (rewrite <- Hs; eapply Permutation_in;
          [symmetry; apply sort_perm|apply in_map; simpl; tauto]).
    pose proof (sorted_head_min h rest Hsorted _ H0) as Hmin.
    pose proof (sorted_last_max rest h Hsorted _ H6) as Hmax.
    pose proof (alice_seven_failures_offsets base h
                  (Hin h (or_introl eq_refl))) as Hh.
    pose proof (alice_seven_failures_offsets base
                  (nth (length rest) (h :: rest) h)
                  (Hin _ (nth_In (h :: rest) h
                            (n := length rest) ltac:(simpl; lia)))) as Hl.
    cbn [timestamp failed_at] in Hmin, Hmax.
    eexists; split; [reflexivity|]; unfold failed_event.
    cbn [SuspiciousEvent.event_count SuspiciousEvent.username
         SuspiciousEvent.first_occurrence SuspiciousEvent.last_occurrence].
    repeat split; lia.
Qed.

(** C3: the window test is symmetric and holds exactly when the absolute
    difference of the timestamps, truncated to whole minutes, is at most
    [time_window_minutes_]; so with a 10-minute window a difference of
    9 min 59 s and one of 10 min 1 s are both within. *)
Theorem isWithinTimeWindow_truncated_minutes : forall d t1 t2,
  isWithinTimeWindow d t1 t2 = isWithinTimeWindow d t2 t1 /\
  (isWithinTimeWindow d t1 t2 = true <->
   Z.quot (Z.abs (t1 - t2)) ticks_per_minute <= time_window_minutes_ d) /\
  (forall t,
     isWithinTimeWindow default_detector t
       (t + 9 * ticks_per_minute + 59 * 1000000000) = true /\
     isWithinTimeWindow default_detector t
       (t + 10 * ticks_per_minute + 1 * 1000000000) = true).
Proof.
  intros d t1 t2; split; [apply isWithinTimeWindow_comm|split].
  - rewrite isWithinTimeWindow_abs; apply Z.leb_le.
  - intro t; rewrite !isWithinTimeWindow_abs; split.
    + replace (Z.abs (t - (t + 9 * ticks_per_minute + 59 * 1000000000)))
        with (9 * ticks_per_minute + 59 * 1000000000)
        by (unfold ticks_per_minute; lia).
      reflexivity.
    + replace (Z.abs (t - (t + 10 * ticks_per_minute + 1 * 1000000000)))
        with (10 * ticks_per_minute + 1 * 1000000000)
        by (unfold ticks_per_minute; lia).
      reflexivity.
Qed.

Lemma quot_minutes_le_mono : forall a b,
  0 <= a <= b -> Z.quot a ticks_per_minute <= Z.quot b ticks_per_minute.
Proof.
  intros a b Hab; pose proof ticks_per_minute_pos.
  rewrite !Z.quot_div_nonneg by lia.
  apply Z.div_le_mono; lia.
Qed.

Lemma user_records_app : forall s u l1 l2,
  user_records s u (l1 ++ l2) = user_records s u l1 ++ user_records s u l2.
Proof. intros; unfold user_records; apply filter_app. Qed.

(** C4 (amended): [threshold - 1] failed logins of a user give no finding;
    one more failed login of that user, at or after the earliest of them
    and whose distance from it truncates to exactly the window, gives
    exactly one finding whose count is the threshold. *)
Theorem failed_logins_threshold_boundary :
  forall d entries1 entries2 u x e,
  let uf := user_records FAILED u (entries1 ++ entries2) in
  Z.of_nat (length uf) = failed_login_threshold_ d - 1 ->
  (forall y z, In y uf -> In z uf ->
     isWithinTimeWindow d (timestamp y) (timestamp z) = true) ->
  status x = FAILED -> username x = u ->
  In e uf -> (forall y, In y uf -> timestamp e <= timestamp y) ->
  timestamp e <= timestamp x ->
  Z.quot (timestamp x - timestamp e) ticks_per_minute = time_window_minutes_ d ->
  filter (fun ev => String.eqb (SuspiciousEvent.username ev) u)
    (detectMultipleFailedLogins sort_by_timestamp d (entries1 ++ entries2))
    = [] /\
  exists ev,
    filter (fun ev => String.eqb (SuspiciousEvent.username ev) u)
      (detectMultipleFailedLogins sort_by_timestamp d
         (entries1 ++ x :: entries2)) = [ev] /\
    SuspiciousEvent.event_count ev = failed_login_threshold_ d.
Proof.
  intros d entries1 entries2 u x e uf Hlen Hall Hx Hux He Hmin Hex Hq.
  split.
  - rewrite failed_findings_of_user; unfold failed_logins_of_user.
    apply failed_scan_short.
    rewrite (Permutation_length (sort_perm _)); fold uf; lia.
  - rewrite failed_findings_of_user.
    set (uf' := user_records FAILED u (entries1 ++ x :: entries2)).
    assert (Hp : Permutation uf' (x :: uf)).
    { unfold uf', uf; rewrite !user_records_app.
      replace (user_records FAILED u (x :: entries2))
        with (x :: user_records FAILED u entries2)
        by (unfold user_records; simpl; rewrite Hx, Hux, String.eqb_refl;
            reflexivity).
      symmetry; apply Permutation_middle. }
    assert (Hwin : forall y, In y (x :: uf) ->
              timestamp e <= timestamp y /\
              Z.quot (timestamp y - timestamp e) ticks_per_minute
                <= time_window_minutes_ d).
    { intros y [<-|Hy]; [split; lia|].
      split; [apply Hmin; assumption|].
      specialize (Hall e y He Hy); rewrite isWithinTimeWindow_abs in Hall.
      apply Z.leb_le in Hall.
      specialize (Hmin y Hy).
      rewrite Z.abs_neq in Hall by lia.
      replace (- (timestamp e - timestamp y))
        with (timestamp y - timestamp e) in Hall by lia.
      exact Hall. }
    destruct (failed_logins_of_user_cluster d u uf') as (h & rest & _ & ->).
    + intros Heq; pose proof (Permutation_length Hp) as Hl;
        rewrite Heq in Hl; discriminate.
    + intros y z Hy Hz.
      apply (Permutation_in _ Hp) in Hy, Hz.
      destruct (Hwin y Hy) as [Hy1 Hy2], (Hwin z Hz) as [Hz1 Hz2].
      rewrite isWithinTimeWindow_abs; apply Z.leb_le.
      destruct (Z.le_ge_cases (timestamp y) (timestamp z)).
      * rewrite Z.abs_neq by lia.
        pose proof (quot_minutes_le_mono (- (timestamp y - timestamp z))
                      (timestamp z - timestamp e) ltac:(lia)); lia.
      * rewrite Z.abs_eq by lia.
        pose proof (quot_minutes_le_mono (timestamp y - timestamp z)
                      (timestamp y - timestamp e) ltac:(lia)); lia.
    + rewrite (Permutation_length Hp); cbn [length]; lia.
    + eexists; split; [reflexivity|]; cbn [failed_event SuspiciousEvent.event_count].
      rewrite (Permutation_length Hp); cbn [length]; lia.
Qed.

(** ** After-hours findings *)

(** C5: [detectLoginsOutsideBusinessHours] gives one finding per record, in
    input order, for exactly the SUCCESS records whose local hour [h] has
    [h < business_hour_start] or [h >= business_hour_end]; each finding has
    both ends of its window at the record's timestamp and count 1. *)
Theorem outside_business_hours_findings : forall getHourOfDay d entries,
  Forall2
    (fun entry ev =>
       SuspiciousEvent.type ev = LOGIN_OUTSIDE_BUSINESS_HOURS /\
       SuspiciousEvent.username ev = username entry /\
       SuspiciousEvent.ip_addresses ev = [ip_address entry] /\
       SuspiciousEvent.first_occurrence ev = timestamp entry /\
       SuspiciousEvent.last_occurrence ev = timestamp entry /\
       SuspiciousEvent.event_count ev = 1)
    (filter
       (fun entry =>
          match status entry with
          | SUCCESS =>
              (getHourOfDay (timestamp entry) <? business_hour_start_ d) ||
              (business_hour_end_ d <=? getHourOfDay (timestamp entry))
          | FAILED | UNKNOWN => false
          end) entries)
    (detectLoginsOutsideBusinessHours getHourOfDay d entries).
Proof.
  intros getHourOfDay d entries.
  induction entries as [|entry entries IH]; simpl; [constructor|].
  destruct (status entry); simpl; try assumption.
  destruct ((getHourOfDay (timestamp entry) <? business_hour_start_ d) ||
            (business_hour_end_ d <=? getHourOfDay (timestamp entry)));
    simpl; [|assumption].
  constructor; [|assumption].
  repeat split.
Qed.

(** ** Multi-address findings *)

Lemma ip_scan_pair_within : forall d u a b,
  ip_address a <> ip_address b ->
  isWithinTimeWindow d (timestamp a) (timestamp b) = true ->
  exists ev, ip_scan d u [a; b] 2 0 = [ev] /\
    SuspiciousEvent.event_count ev = 2 /\
    In (ip_address a) (SuspiciousEvent.ip_addresses ev) /\
    In (ip_address b) (SuspiciousEvent.ip_addresses ev).
Proof.
  intros d u a b Hne Hw.
  cbn [ip_scan nth_error skipn collect_ips_within_window set_insert].
  rewrite Hw.
  destruct (String.compare (ip_address b) (ip_address a)) eqn:Hc.
  - apply String.compare_eq_iff in Hc; congruence.
  - cbn; eexists; split; [reflexivity|]; cbn; auto.
  - cbn; eexists; split; [reflexivity|]; cbn; auto.
Qed.

Lemma ip_scan_pair_apart : forall d u a b,
  isWithinTimeWindow d (timestamp a) (timestamp b) = false ->
  ip_scan d u [a; b] 2 0 = [].
Proof.
  intros d u a b Hw.
  cbn [ip_scan nth_error skipn collect_ips_within_window set_insert].
  rewrite Hw; reflexivity.
Qed.

Lemma group_by_username_pair : forall s r1 r2,
  status r1 = s -> status r2 = s -> username r1 = username r2 ->
  group_by_username s [r1; r2] = [(username r1, [r1; r2])].
Proof.
  intros s r1 r2 H1 H2 Hu; unfold group_by_username; simpl.
  rewrite H1, H2; destruct s; simpl; rewrite Hu, string_compare_refl;
    reflexivity.
Qed.

(** C6: two SUCCESS logins of one user from two different addresses whose
    timestamps are exactly the window apart give one finding with count 2
    listing both addresses; [window + 1] minutes apart they give none. *)
Theorem two_addresses_window_boundary : forall d r1 r2,
  0 <= time_window_minutes_ d ->
  status r1 = SUCCESS -> status r2 = SUCCESS ->
  username r1 = username r2 -> ip_address r1 <> ip_address r2 ->
  (Z.abs (timestamp r1 - timestamp r2) =
     time_window_minutes_ d * ticks_per_minute ->
   exists ev,
     detectMultipleIPAddresses sort_by_timestamp d [r1; r2] = [ev] /\
     SuspiciousEvent.event_count ev = 2 /\
     In (ip_address r1) (SuspiciousEvent.ip_addresses ev) /\
     In (ip_address r2) (SuspiciousEvent.ip_addresses ev)) /\
  (Z.abs (timestamp r1 - timestamp r2) =
     (time_window_minutes_ d + 1) * ticks_per_minute ->
   detectMultipleIPAddresses sort_by_timestamp d [r1; r2] = []).
Proof.
  intros d r1 r2 Hw H1 H2 Hu Hne.
  unfold detectMultipleIPAddresses.
  rewrite group_by_username_pair by assumption.
  cbn [flat_map fst snd]; rewrite app_nil_r.
  unfold ip_logins_of_user.
  assert (Hs : sort_by_timestamp [r1; r2] = [r1; r2] \/
               sort_by_timestamp [r1; r2] = [r2; r1])
    by (apply Permutation_length_2_inv; symmetry; apply sort_perm).
  split; intros Habs.
  - assert (Hin : forall a b, isWithinTimeWindow d (timestamp a) (timestamp b)
                    = isWithinTimeWindow d (timestamp r1) (timestamp r2) ->
                  isWithinTimeWindow d (timestamp a) (timestamp b) = true)
      by (intros a b ->; rewrite (isWithinTimeWindow_minutes _ _ _ _ Hw Habs);
          apply Z.leb_le; lia).
    destruct Hs as [-> | ->]; cbn [length].
    + destruct (ip_scan_pair_within d (username r1) r1 r2 Hne)
        as (ev & -> & Hc & Ha & Hb); [apply Hin; reflexivity|].
      eauto.
    + destruct (ip_scan_pair_within d (username r1) r2 r1 (not_eq_sym Hne))
        as (ev & -> & Hc & Ha & Hb);
        [apply Hin, isWithinTimeWindow_comm|].
      eauto.
  - assert (Hfar : isWithinTimeWindow d (timestamp r1) (timestamp r2) = false)
      by (rewrite (isWithinTimeWindow_minutes d _ _ (time_window_minutes_ d + 1) ltac:(lia) Habs);
          apply Z.leb_gt; lia).
    destruct Hs as [-> | ->]; cbn [length].
    + apply ip_scan_pair_apart; assumption.
    + apply ip_scan_pair_apart; rewrite isWithinTimeWindow_comm; assumption.
Qed.

Lemma user_of_finding_in : forall (f : string -> list LogEntry -> list SuspiciousEvent)
    s entries ev,
  (forall k v ev, In ev (f k v) -> SuspiciousEvent.username ev = k) ->
  f EmptyString [] = [] ->
  (forall k, f k [] = []) ->
  In ev (flat_map (fun p => f (fst p) (snd p)) (group_by_username s entries)) ->
  In ev (f (SuspiciousEvent.username ev)
           (user_records s (SuspiciousEvent.username ev) entries)).
Proof.
  intros f s entries ev Hu _ Hnil Hin.
  rewrite <- group_by_username_find.
  apply in_flat_map_findings; auto.
  apply group_by_username_sorted.
Qed.

(** C7: every multi-address finding lists, in strictly ascending string
    order, exactly the distinct addresses of the records counted into its
    window, and its count is the number of those addresses. *)
Theorem ip_findings_distinct_sorted_addresses : forall d entries ev,
  In ev (detectMultipleIPAddresses sort_by_timestamp d entries) ->
  exists i ws,
    nth_error (sort_by_timestamp
                 (user_records SUCCESS (SuspiciousEvent.username ev) entries))
      i = Some ws /\
    (forall a, In a (SuspiciousEvent.ip_addresses ev) <->
       exists r, In r (window_records d
                         (sort_by_timestamp
                            (user_records SUCCESS
                               (SuspiciousEvent.username ev) entries))
                         i ws) /\
                 ip_address r = a) /\
    StronglySorted string_lt (SuspiciousEvent.ip_addresses ev) /\
    SuspiciousEvent.event_count ev =
      Z.of_nat (length (SuspiciousEvent.ip_addresses ev)).
Proof.
  intros d entries ev Hin.
  apply (user_of_finding_in (ip_logins_of_user sort_by_timestamp d)) in Hin.
  2: apply ip_logins_of_user_username.
  2, 3: intros; unfold ip_logins_of_user; rewrite sort_nil; reflexivity.
  unfold ip_logins_of_user in Hin.
  set (u := SuspiciousEvent.username ev) in *.
  set (v := sort_by_timestamp (user_records SUCCESS u entries)) in *.
  apply ip_scan_in in Hin as (i & ws & ips & idx & Hi & Hc & _ & Hev).
  pose proof (collect_ips_within_window_set d ws (skipn (S i) v) (S i)
                (set_insert (ip_address ws) []) i) as Hset.
  rewrite Hc in Hset; cbn [fst] in Hset.
  exists i, ws; split; [assumption|].
  rewrite Hev; cbn [ip_event SuspiciousEvent.ip_addresses
                    SuspiciousEvent.event_count].
  split; [|split; [|reflexivity]].
  - intro a; rewrite Hset, insert_ips_in; unfold window_records; simpl.
    split.
    + intros [[<-|[]]|(r & Hr & Ha)]; eauto.
    + intros (r & [<-|Hr] & Ha); [left; left; assumption|right; eauto].
  - rewrite Hset; apply insert_ips_sorted; repeat constructor.
Qed.

(** ** Failed-login findings carry the anchor's address *)

Lemma take_within_incl : forall d ws rest r,
  In r (take_within d ws rest) -> In r rest.
Proof.
  intros d ws rest r; induction rest as [|e rest IH]; simpl; [tauto|].
  destruct (isWithinTimeWindow d (timestamp ws) (timestamp e)); simpl;
    intuition.
Qed.

Lemma nth_error_skipn_cons {A} : forall (v : list A) i x,
  nth_error v i = Some x -> skipn i v = x :: skipn (S i) v.
Proof.
  induction v as [|y v IH]; intros [|i] x H; simpl in *; try discriminate.
  - injection H as ->; reflexivity.
  - apply IH; assumption.
Qed.

Lemma StronglySorted_skipn {A} (R : A -> A -> Prop) : forall l i,
  StronglySorted R l -> StronglySorted R (skipn i l).
Proof.
  induction l as [|x l IH]; intros [|i] H; simpl; try assumption.
  apply IH; apply StronglySorted_inv in H; tauto.
Qed.

(** C10: every failed-login finding names one address, that of the anchor
    of its cluster (the earliest record counted), whatever the addresses
    of the other records counted. *)
Theorem failed_findings_anchor_address : forall d entries ev,
  In ev (detectMultipleFailedLogins sort_by_timestamp d entries) ->
  exists i ws,
    nth_error (sort_by_timestamp
                 (user_records FAILED (SuspiciousEvent.username ev) entries))
      i = Some ws /\
    SuspiciousEvent.ip_addresses ev = [ip_address ws] /\
    SuspiciousEvent.first_occurrence ev = timestamp ws /\
    (forall r, In r (window_records d
                       (sort_by_timestamp
                          (user_records FAILED
                             (SuspiciousEvent.username ev) entries))
                       i ws) ->
       timestamp ws <= timestamp r).
Proof.
  intros d entries ev Hin.
  apply (user_of_finding_in (failed_logins_of_user sort_by_timestamp d)) in Hin.
  2: apply failed_logins_of_user_username.
  2, 3: intros; unfold failed_logins_of_user; rewrite sort_nil; reflexivity.
  unfold failed_logins_of_user in Hin.
  set (u := SuspiciousEvent.username ev) in *.
  set (v := sort_by_timestamp (user_records FAILED u entries)) in *.
  apply failed_scan_in in Hin as (i & ws & count & idx & Hi & _ & _ & Hev).
  exists i, ws; split; [assumption|].
  rewrite Hev; cbn [failed_event SuspiciousEvent.ip_addresses
                    SuspiciousEvent.first_occurrence].
  split; [reflexivity|split; [reflexivity|]].
  intros r [<-|Hr]; [lia|].
  apply take_within_incl in Hr.
  assert (Hss : StronglySorted timestamp_le (skipn i v)).
  { apply StronglySorted_skipn, Sorted_StronglySorted; [|apply sort_sorted].
    intros a b c Hab Hbc; unfold timestamp_le in *; lia. }
  rewrite (nth_error_skipn_cons v i ws Hi) in Hss.
  apply StronglySorted_inv in Hss as [_ Hall]; rewrite Forall_forall in Hall.
  apply Hall; assumption.
Qed.

(** ** The combinator and the empty input *)

(** C8: [detectAll] is the failed-login findings, then the after-hours
    findings, then the multi-address findings, each detector run on the
    whole input; its length is the sum of theirs. *)
Theorem detectAll_concatenation : forall getHourOfDay d entries,
  detectAll sort_by_timestamp getHourOfDay d entries =
    detectMultipleFailedLogins sort_by_timestamp d entries ++
    detectLoginsOutsideBusinessHours getHourOfDay d entries ++
    detectMultipleIPAddresses sort_by_timestamp d entries /\
  length (detectAll sort_by_timestamp getHourOfDay d entries) =
    (length (detectMultipleFailedLogins sort_by_timestamp d entries) +
     length (detectLoginsOutsideBusinessHours getHourOfDay d entries) +
     length (detectMultipleIPAddresses sort_by_timestamp d entries))%nat.
Proof.
  intros getHourOfDay d entries; split; [reflexivity|].
  unfold detectAll; rewrite !length_app; lia.
Qed.

(** C9: the detectors are total functions returning a list of findings;
    the outer scans stop within [size()] steps (more fuel changes
    nothing); on the empty input every entry point returns the empty
    list. *)
Theorem detectors_total_empty_input : forall getHourOfDay d,
  detectMultipleFailedLogins sort_by_timestamp d [] = [] /\
  detectLoginsOutsideBusinessHours getHourOfDay d [] = [] /\
  detectMultipleIPAddresses sort_by_timestamp d [] = [] /\
  detectAll sort_by_timestamp getHourOfDay d [] = [] /\
  (forall u v fuel, (length v <= fuel)%nat ->
     failed_scan d u v fuel 0 = failed_scan d u v (length v) 0) /\
  (forall u v fuel, (length v <= fuel)%nat ->
     ip_scan d u v fuel 0 = ip_scan d u v (length v) 0).
Proof.
  intros getHourOfDay d; repeat split.
  - intros u v fuel Hle; apply failed_scan_fuel; lia.
  - intros u v fuel Hle; apply ip_scan_fuel; lia.
Qed.

End Claims.

(** ** Instances of the claims on concrete inputs *)

Lemma pairwise_within_spec : forall d l,
  pairwise_within d l = true ->
  forall x y, In x l -> In y l ->
    isWithinTimeWindow d (timestamp x) (timestamp y) = true.
Proof.
  unfold pairwise_within; intros d l H x y Hx Hy.
  rewrite forallb_forall in H; specialize (H x Hx).
  rewrite forallb_forall in H; apply H; assumption.
Qed.

Lemma failed_logins_double_threshold_one_finding_witness :
  0 < failed_login_threshold_ default_detector /\
  Z.of_nat (length (user_records FAILED "alice" ten_failures)) =
    2 * failed_login_threshold_ default_detector /\
  exists ev,
    filter (fun ev => String.eqb (SuspiciousEvent.username ev) "alice")
      (detectMultipleFailedLogins TimestampSort.sort default_detector
         ten_failures) = [ev] /\
    SuspiciousEvent.event_count ev = 2 * failed_login_threshold_ default_detector.
Proof.
  split; [reflexivity|]; split; [vm_compute; reflexivity|].
  exact (proj1 (failed_logins_double_threshold_one_finding
                  TimestampSort.sort merge_sort_perm default_detector
                  ten_failures "alice" ltac:(reflexivity)
                  ltac:(vm_compute; reflexivity)
                  (pairwise_within_spec default_detector
                     (user_records FAILED "alice" ten_failures)
                     ltac:(vm_compute; reflexivity)))).
Defined.

Lemma seven_failures_one_finding_count_seven_witness :
  exists ev,
    detectMultipleFailedLogins TimestampSort.sort default_detector
      (alice_seven_failures 0) = [ev] /\
    SuspiciousEvent.event_count ev = 7 /\
    SuspiciousEvent.username ev = "alice"%string /\
    SuspiciousEvent.first_occurrence ev = 0 /\
    SuspiciousEvent.last_occurrence ev = 0 + 6 * ticks_per_minute.
Proof.
  exact (seven_failures_one_finding_count_seven TimestampSort.sort
           merge_sort_perm merge_sort_sorted 0).
Defined.

(** The count the spec gives for the seven-failure scenario is not the
    code's: the finding counts all seven records. *)
Lemma seven_failures_count_not_six :
  ~ (exists ev,
       detectMultipleFailedLogins TimestampSort.sort default_detector
         (alice_seven_failures 0) = [ev] /\
       SuspiciousEvent.event_count ev = 6).
Proof.
  intros (ev & H & Hc).
  vm_compute in H; injection H as <-.
  vm_compute in Hc; discriminate.
Qed.

(** Two failures 5 minutes apart (threshold 3, window 10): a third one 10
    minutes BEFORE the earliest is at distance exactly the window from it,
    but becomes the anchor, whose window misses the record at minute 5: no
    finding. *)
Lemma failed_logins_boundary_before_earliest :
  Z.of_nat (length (user_records FAILED "alice" two_failures)) =
    failed_login_threshold_ threshold_three - 1 /\
  pairwise_within threshold_three (user_records FAILED "alice" two_failures)
    = true /\
  (forall y, In y (user_records FAILED "alice" two_failures) ->
     timestamp (failed_at 0 0) <= timestamp y) /\
  Z.quot (Z.abs (timestamp (failed_at 0 (-10)) - timestamp (failed_at 0 0)))
    ticks_per_minute = time_window_minutes_ threshold_three /\
  filter (fun ev => String.eqb (SuspiciousEvent.username ev) "alice")
    (detectMultipleFailedLogins TimestampSort.sort threshold_three
       (two_failures ++ [failed_at 0 (-10)])) = [].
Proof.
  split; [vm_compute; reflexivity|].
  split; [vm_compute; reflexivity|].
  split.
  - intros y Hy; simpl in Hy.
    destruct Hy as [<-|[<-|[]]]; apply Z.leb_le; vm_compute; reflexivity.
  - split; vm_compute; reflexivity.
Qed.

Lemma failed_logins_threshold_boundary_witness :
  filter (fun ev => String.eqb (SuspiciousEvent.username ev) "alice")
    (detectMultipleFailedLogins TimestampSort.sort threshold_three
       (two_failures ++ [])) = [] /\
  exists ev,
    filter (fun ev => String.eqb (SuspiciousEvent.username ev) "alice")
      (detectMultipleFailedLogins TimestampSort.sort threshold_three
         (two_failures ++ [failed_at 0 10])) = [ev] /\
    SuspiciousEvent.event_count ev = failed_login_threshold_ threshold_three.
Proof.
  exact (failed_logins_threshold_boundary TimestampSort.sort merge_sort_perm
           threshold_three two_failures [] "alice" (failed_at 0 10)
           (failed_at 0 0)
           ltac:(vm_compute; reflexivity)
           (pairwise_within_spec threshold_three
              (user_records FAILED "alice" (two_failures ++ []))
              ltac:(vm_compute; reflexivity))
           eq_refl eq_refl
           ltac:(simpl; left; reflexivity)
           ltac:(intros y Hy; simpl in Hy;
                 destruct Hy as [<-|[<-|[]]]; apply Z.leb_le;
                 vm_compute; reflexivity)
           ltac:(apply Z.leb_le; vm_compute; reflexivity)
           ltac:(vm_compute; reflexivity)).
Defined.

Lemma two_addresses_window_boundary_witness :
  (exists ev,
     detectMultipleIPAddresses TimestampSort.sort default_detector
       (two_logins_apart 10) = [ev] /\
     SuspiciousEvent.event_count ev = 2 /\
     In "10.0.0.1"%string (SuspiciousEvent.ip_addresses ev) /\
     In "10.0.0.2"%string (SuspiciousEvent.ip_addresses ev)) /\
  detectMultipleIPAddresses TimestampSort.sort default_detector
    (two_logins_apart 11) = [].
Proof.
  split.
  - exact (proj1 (two_addresses_window_boundary TimestampSort.sort
                    merge_sort_perm default_detector
                    (login_at "alice" "10.0.0.1" SUCCESS 0)
                    (login_at "alice" "10.0.0.2" SUCCESS 10)
                    ltac:(apply Z.leb_le; reflexivity) eq_refl eq_refl eq_refl
                    ltac:(discriminate))
             ltac:(vm_compute; reflexivity)).
  - exact (proj2 (two_addresses_window_boundary TimestampSort.sort
                    merge_sort_perm default_detector
                    (login_at "alice" "10.0.0.1" SUCCESS 0)
                    (login_at "alice" "10.0.0.2" SUCCESS 11)
                    ltac:(apply Z.leb_le; reflexivity) eq_refl eq_refl eq_refl
                    ltac:(discriminate))
             ltac:(vm_compute; reflexivity)).
Defined.

Lemma ip_findings_distinct_sorted_addresses_witness :
  In three_logins_finding
    (detectMultipleIPAddresses TimestampSort.sort default_detector
       three_logins_two_addresses) /\
  exists i ws,
    nth_error (TimestampSort.sort
                 (user_records SUCCESS
                    (SuspiciousEvent.username three_logins_finding)
                    three_logins_two_addresses)) i = Some ws /\
    (forall a, In a (SuspiciousEvent.ip_addresses three_logins_finding) <->
       exists r, In r (window_records default_detector
                         (TimestampSort.sort
                            (user_records SUCCESS
                               (SuspiciousEvent.username three_logins_finding)
                               three_logins_two_addresses))
                         i ws) /\
                 ip_address r = a) /\
    StronglySorted string_lt
      (SuspiciousEvent.ip_addresses three_logins_finding) /\
    SuspiciousEvent.event_count three_logins_finding =
      Z.of_nat (length (SuspiciousEvent.ip_addresses three_logins_finding)).
Proof.
  assert (Hin : In three_logins_finding
                  (detectMultipleIPAddresses TimestampSort.sort
                     default_detector three_logins_two_addresses))
    by (vm_compute; left; reflexivity).
  split; [exact Hin|].
  exact (ip_findings_distinct_sorted_addresses TimestampSort.sort
           merge_sort_perm default_detector three_logins_two_addresses
           three_logins_finding Hin).
Defined.

Lemma failed_findings_anchor_address_witness :
  In five_failures_finding
    (detectMultipleFailedLogins TimestampSort.sort default_detector
       five_failures_five_addresses) /\
  exists i ws,
    nth_error (TimestampSort.sort
                 (user_records FAILED
                    (SuspiciousEvent.username five_failures_finding)
                    five_failures_five_addresses)) i = Some ws /\
    SuspiciousEvent.ip_addresses five_failures_finding = [ip_address ws] /\
    SuspiciousEvent.first_occurrence five_failures_finding = timestamp ws /\
    (forall r, In r (window_records default_detector
                       (TimestampSort.sort
                          (user_records FAILED
                             (SuspiciousEvent.username five_failures_finding)
                             five_failures_five_addresses))
                       i ws) ->
       timestamp ws <= timestamp r).
Proof.
  assert (Hin : In five_failures_finding
                  (detectMultipleFailedLogins TimestampSort.sort
                     default_detector five_failures_five_addresses))
    by (vm_compute; left; reflexivity).
  split; [exact Hin|].
  exact (failed_findings_anchor_address TimestampSort.sort
           merge_sort_perm merge_sort_sorted default_detector
           five_failures_five_addresses five_failures_finding Hin).
Defined.

(** * Configuration, parsing and the detectors' invariants *)

(** ** ConfigManager *)

Lemma validateConfiguration_spec : forall self,
  validateConfiguration self = true <->
  0 < failed_login_threshold (config_ self) /\
  0 < time_window_minutes (config_ self) /\
  0 <= business_hour_start (config_ self) /\
  business_hour_start (config_ self) < business_hour_end (config_ self) /\
  business_hour_end (config_ self) <= 23 /\
  log_file_path (config_ self) <> ""%string /\
  report_output_path (config_ self) <> ""%string.
Proof.
  intros [[t w s e lp rp] h]; unfold validateConfiguration; cbn.
  destruct (Z.leb_spec t 0); [split; [discriminate|lia]|].
  destruct (Z.leb_spec w 0); [split; [discriminate|lia]|].
  destruct (Z.ltb_spec s 0), (Z.ltb_spec 23 s); cbn;
    try (split; [discriminate|lia]).
  destruct (Z.ltb_spec e 0), (Z.ltb_spec 23 e); cbn;
    try (split; [discriminate|lia]).
  destruct (Z.leb_spec e s); [split; [discriminate|lia]|].
  destruct (String.eqb_spec lp ""); [split; [discriminate|tauto]|].
  destruct (String.eqb_spec rp ""); [split; [discriminate|tauto]|].
  split; [intros _; repeat split; assumption|reflexivity].
Qed.

Lemma parse_args_help : forall args self self',
  parse_args args self = (Some true, self') -> help_requested_ self' = true.
Proof.
  intros args; remember (length args) as n eqn:Hn.
  revert args Hn; induction n as [n IH] using lt_wf_ind.
  intros [|arg args] Hn self self' H; cbn [parse_args] in H; [discriminate|].
  repeat match type of H with
  | (if ?b then _ else _) = _ => destruct b
  | (match ?x with _ => _ end) = _ => destruct x
  end;
  try (injection H as <-; reflexivity); try discriminate;
  match type of H with
  | parse_args ?o _ = _ =>
      eapply (IH (length o)); [cbn in Hn; lia|reflexivity|exact H]
  end.
Qed.

Lemma parse_args_app : forall opts self self1 rest,
  parse_args opts self = (None, self1) ->
  parse_args (opts ++ rest) self = parse_args rest self1.
Proof.
  intros opts; remember (length opts) as n eqn:Hn.
  revert opts Hn; induction n as [n IH] using lt_wf_ind.
  intros [|arg opts] Hn self self1 rest H.
  - cbn [parse_args] in H; injection H as <-; reflexivity.
  - cbn [app parse_args] in H |- *.
    repeat (cbn [app] in *; match goal with
    | H : (if ?b then _ else _) = _ |- _ => destruct b
    | H : (match ?x with _ => _ end) = _ |- _ => destruct x
    end); try discriminate;
    match goal with
    | H : parse_args ?o _ = (None, _) |- _ =>
        eapply (IH (length o)); [cbn in Hn; lia|reflexivity|exact H]
    end.
Qed.

(** ** parseInteger and std::to_string *)

Lemma digits_value_acc : forall u p,
  digits_value (Z.pos p) (NilEmpty.string_of_uint u) =
  Z.pos (Pos.of_uint_acc u p).
Proof.
  induction u; intros p;
    cbn [NilEmpty.string_of_uint digits_value Pos.of_uint_acc];
    try reflexivity;
  match goal with
  | |- digits_value ?a _ = Z.pos (Pos.of_uint_acc _ ?q) =>
      replace a with (Z.pos q); [apply IHu|]
  end;
  match goal with
  | |- context [Z.of_nat (nat_of_ascii ?c)] =>
      let v := eval vm_compute in (Z.of_nat (nat_of_ascii c)) in
      change (Z.of_nat (nat_of_ascii c)) with v
  end; lia.
Qed.

Lemma digits_value_uint : forall u,
  digits_value 0 (NilEmpty.string_of_uint u) = Z.of_uint u.
Proof.
  induction u; cbn [NilEmpty.string_of_uint digits_value]; [reflexivity|..];
    match goal with
    | |- digits_value ?a _ = _ =>
        let v := eval vm_compute in a in change a with v
    end;
    unfold Z.of_uint in *; cbn [Pos.of_uint];
    [exact IHu|..]; rewrite digits_value_acc; reflexivity.
Qed.

Lemma all_digits_uint : forall u,
  all_digits (NilEmpty.string_of_uint u) = true.
Proof. induction u; cbn; assumption || reflexivity. Qed.

(** The text of an unsigned decimal: non-empty, digits only. *)
Lemma string_of_uint_shape : forall u,
  exists c rest, NilZero.string_of_uint u = String c rest /\
    isdigit c = true /\ all_digits rest = true /\
    digits_value 0 (String c rest) = Z.of_uint u.
Proof.
  intros u; unfold NilZero.string_of_uint.
  destruct u; cbn [NilEmpty.string_of_uint];
    eexists; eexists; split; try reflexivity;
    (split; [reflexivity|]); split;
    try apply all_digits_uint; try reflexivity;
  match goal with
  | |- digits_value 0 (String ?c (NilEmpty.string_of_uint ?u0)) = _ =>
      rewrite <- (digits_value_uint (_ u0)); reflexivity
  end.
Qed.

Lemma parseInteger_string_of_int : forall i,
  parseInteger (NilZero.string_of_int i) =
  if (INT_MIN <=? Z.of_int i) && (Z.of_int i <=? INT_MAX)
  then Some (Z.of_int i) else None.
Proof.
  intros [u|u]; destruct (string_of_uint_shape u)
    as (c & rest & Hs & Hc & Hr & Hv); cbn [NilZero.string_of_int Z.of_int];
    rewrite Hs; unfold parseInteger, extract_int.
  - assert (Hm : Ascii.eqb c "-"%char = false).
    { apply Ascii.eqb_neq; intros ->; discriminate. }
    rewrite Hm; cbn [andb negb all_digits]; rewrite Hc, Hr;
      cbn [andb negb]; rewrite Hv; reflexivity.
  - rewrite Ascii.eqb_refl; cbn [andb negb String.length Nat.eqb].
    cbn [all_digits]; rewrite Hc, Hr; cbn [andb negb].
    cbn [digits_value] in Hv |- *; rewrite Hv; reflexivity.
Qed.

Lemma parseInteger_to_string_eq : forall n,
  parseInteger (to_string n) =
  if (INT_MIN <=? n) && (n <=? INT_MAX) then Some n else None.
Proof.
  intros n; unfold to_string; rewrite parseInteger_string_of_int.
  rewrite DecimalZ.of_to; reflexivity.
Qed.

Lemma extract_int_range : forall s v,
  extract_int s = Some v -> INT_MIN <= v <= INT_MAX.
Proof.
  intros s v; unfold extract_int.
  match goal with
  | |- (if (INT_MIN <=? ?w) && (?w <=? INT_MAX) then _ else _) = _ -> _ =>
      destruct (Z.leb_spec INT_MIN w), (Z.leb_spec w INT_MAX);
        cbn [andb]; intros Hx; try discriminate
  end.
  injection Hx as <-; split; assumption.
Qed.

Lemma parseInteger_range : forall s v,
  parseInteger s = Some v -> INT_MIN <= v <= INT_MAX.
Proof.
  intros [|c s] v H; unfold parseInteger in H; [discriminate|].
  destruct (_ && _); [discriminate|].
  destruct (negb _); [discriminate|].
  eapply extract_int_range; eassumption.
Qed.

(** ** parseBusinessHours *)

Lemma string_length_app : forall s1 s2,
  String.length (s1 ++ s2) = (String.length s1 + String.length s2)%nat.
Proof.
  induction s1; intros [|c s2]; cbn; try reflexivity; rewrite IHs1; reflexivity.
Qed.

Lemma substring_full : forall s, String.substring 0 (String.length s) s = s.
Proof. induction s; cbn; [reflexivity|rewrite IHs; reflexivity]. Qed.

Lemma substring_prefix : forall s1 s2,
  String.substring 0 (String.length s1) (s1 ++ s2) = s1.
Proof.
  induction s1; intros [|c s2]; cbn; try reflexivity; rewrite IHs1; reflexivity.
Qed.

Lemma substring_skip : forall s1 s2 n m,
  String.substring (String.length s1 + n) m (s1 ++ s2) =
  String.substring n m s2.
Proof. induction s1; intros; cbn; [reflexivity|apply IHs1]. Qed.

Lemma index_dash_digits : forall s1 s2,
  all_digits s1 = true ->
  String.index 0 "-" (s1 ++ String "-" s2) = Some (String.length s1).
Proof.
  induction s1 as [|c s1 IH]; intros s2 Hd.
  { cbn [String.append String.index]; cbn [String.prefix].
    destruct (Ascii.ascii_dec "-" "-") as [_|Hn]; [|contradiction].
    destruct s2; reflexivity. }
  cbn [all_digits] in Hd; apply Bool.andb_true_iff in Hd as [Hc Hd].
  cbn [String.append String.index]; rewrite IH by assumption.
  destruct (String.prefix "-" (String c (s1 ++ String "-" s2))) eqn:Hp;
    [|reflexivity].
  cbn [String.prefix] in Hp.
  destruct (Ascii.ascii_dec "-" c) as [<-|]; [discriminate|discriminate].
Qed.

Lemma to_string_nonneg : forall a, 0 <= a ->
  exists c rest, to_string a = String c rest /\
    all_digits (String c rest) = true.
Proof.
  intros a Ha; unfold to_string.
  assert (Hu : exists u, Z.to_int a = Decimal.Pos u).
  { destruct a; cbn; [eexists; reflexivity|eexists; reflexivity|lia]. }
  destruct Hu as [u ->]; cbn [NilZero.string_of_int].
  destruct (string_of_uint_shape u) as (c & rest & Hs & Hc & Hr & _).
  exists c, rest; rewrite Hs; split; [reflexivity|].
  cbn [all_digits]; rewrite Hc, Hr; reflexivity.
Qed.

Lemma to_string_neg : forall a, a < 0 ->
  exists rest, to_string a = String "-" rest.
Proof.
  intros a Ha; unfold to_string.
  destruct a; cbn; [lia|lia|eexists; reflexivity].
Qed.

Lemma parseBusinessHours_range : forall s start end_,
  parseBusinessHours s = Some (start, end_) ->
  0 <= start < end_ /\ end_ <= 23.
Proof.
  intros s start end_; unfold parseBusinessHours.
  destruct (String.index 0 "-" s); [|discriminate].
  destruct (parseInteger _) as [a|]; [|discriminate].
  destruct (parseInteger _) as [b|]; [|discriminate].
  destruct (Z.ltb_spec a 0), (Z.ltb_spec 23 a), (Z.ltb_spec b 0),
    (Z.ltb_spec 23 b); cbn [orb]; try discriminate.
  destruct (Z.leb_spec b a); [discriminate|].
  intros Hx; injection Hx as <- <-; lia.
Qed.

(** X2: [parseBusinessHours] on ["a-b"] written with [std::to_string] returns [(a, b)] exactly when [0 <= a < b <= 23], and fails otherwise (in particular for a negative start, whose dash is found first). *)
Theorem parseBusinessHours_to_string : forall a b,
  parseBusinessHours (to_string a ++ "-" ++ to_string b) =
  if (0 <=? a) && (a <? b) && (b <=? 23) then Some (a, b) else None.
Proof.
  intros a b; unfold parseBusinessHours; cbn [String.append].
  destruct (Z.ltb_spec a 0) as [Ha|Ha].
  - destruct (to_string_neg a Ha) as [r ->]; cbn [String.append].
    cbn [String.index String.prefix].
    destruct (Ascii.ascii_dec "-" "-") as [_|Hn]; [|contradiction].
    replace (String.prefix "" _) with true by (destruct r; reflexivity).
    cbn [String.substring parseInteger].
    replace (0 <=? a) with false by (symmetry; apply Z.leb_gt; lia).
    reflexivity.
  - destruct (to_string_nonneg a Ha) as (c & rest & Hs & Hd).
    rewrite <- Hs in Hd.
    set (sa := to_string a) in *; set (sb := to_string b).
    rewrite index_dash_digits by assumption.
    rewrite substring_prefix.
    assert (Hend : String.substring (S (String.length sa))
               (String.length (sa ++ String "-" sb) - S (String.length sa))
               (sa ++ String "-" sb) = sb).
    { rewrite string_length_app; cbn [String.length].
      replace (String.length sa + S (String.length sb) - S (String.length sa))%nat
        with (String.length sb) by lia.
      replace (S (String.length sa)) with (String.length sa + 1)%nat by lia.
      rewrite substring_skip; cbn [String.substring].
      apply substring_full. }
    rewrite Hend; unfold sa, sb; rewrite !parseInteger_to_string_eq.
    unfold INT_MIN, INT_MAX.
    destruct (Z.leb_spec (-2147483648) a), (Z.leb_spec a 2147483647);
      cbn [andb]; try (destruct (Z.leb_spec 0 a), (Z.ltb_spec a b),
        (Z.leb_spec b 23); cbn [andb]; reflexivity || lia).
    destruct (Z.leb_spec (-2147483648) b), (Z.leb_spec b 2147483647);
      cbn [andb];
      destruct (Z.ltb_spec a 0), (Z.ltb_spec 23 a), (Z.ltb_spec b 0),
        (Z.ltb_spec 23 b), (Z.leb_spec b a), (Z.leb_spec 0 a),
        (Z.ltb_spec a b), (Z.leb_spec b 23); cbn [orb andb];
      reflexivity || lia.
Qed.

(** X3: with no option after the program name, [parseCommandLineArgs] clears the help flag, keeps the configuration, and returns whether that configuration is valid; the configuration of a new [ConfigManager] is valid. *)
Theorem parseCommandLineArgs_no_options : forall self argv0,
  parseCommandLineArgs self [argv0] =
  (validateConfiguration self, mkConfigManager (config_ self) false) /\
  validateConfiguration new_ConfigManager = true.
Proof.
  intros [c h] argv0; split; [|reflexivity].
  unfold parseCommandLineArgs; cbn [tl parse_args help_requested_ negb andb].
  change (validateConfiguration (mkConfigManager c false)) with
    (validateConfiguration (mkConfigManager c h)).
  destruct (validateConfiguration _); reflexivity.
Qed.

(** X8: [setConfiguration] returns whether the new configuration is valid; it installs it when valid and otherwise restores the previous state; it never touches the help flag, and a valid manager stays valid. *)
Theorem setConfiguration_keeps_valid : forall self config,
  let '(ok, self') := setConfiguration self config in
  ok = validateConfiguration (with_config self config) /\
  help_requested_ self' = help_requested_ self /\
  (ok = true -> getConfiguration self' = config) /\
  (ok = false -> self' = self) /\
  (validateConfiguration self = true -> validateConfiguration self' = true).
Proof.
  intros [c h] config; unfold setConfiguration.
  destruct (validateConfiguration (with_config _ config)) eqn:Hv; cbn [negb];
    repeat split; try reflexivity; try discriminate; auto.
Qed.

(** X7: when [parseCommandLineArgs] returns [true] without a help request, the detector [main] builds from the configuration has a positive threshold and window and business hours [0 <= start < end <= 23], and both paths are nonempty. *)
Theorem parseCommandLineArgs_valid_detector : forall self argv self',
  parseCommandLineArgs self argv = (true, self') ->
  isHelpRequested self' = false ->
  let det := detector_of_configuration (getConfiguration self') in
  0 < failed_login_threshold_ det /\ 0 < time_window_minutes_ det /\
  0 <= business_hour_start_ det < business_hour_end_ det /\
  business_hour_end_ det <= 23 /\
  log_file_path (getConfiguration self') <> ""%string /\
  report_output_path (getConfiguration self') <> ""%string.
Proof.
  intros self argv self' H Hh det; unfold parseCommandLineArgs in H.
  destruct (parse_args (tl argv) _) as [[b|] s] eqn:Hp.
  - injection H as -> ->; apply parse_args_help in Hp.
    unfold isHelpRequested in Hh; congruence.
  - unfold isHelpRequested in Hh.
    destruct (negb (help_requested_ s) && negb (validateConfiguration s))
      eqn:Hv; [discriminate|].
    injection H as <-; rewrite Hh in Hv; cbn [negb andb] in Hv.
    destruct (validateConfiguration s) eqn:Hs; [|discriminate].
    apply validateConfiguration_spec in Hs; unfold det; cbn.
    unfold getConfiguration; tauto.
Qed.

(** X5: once [--help] or [-h] is reached (after options that parse), [parseCommandLineArgs] returns [true] with the help flag set and the settings made so far, whatever arguments follow, without validating. *)
Theorem parseCommandLineArgs_help_skips_rest :
  forall self argv0 opts h rest s1,
  (h = "--help"%string \/ h = "-h"%string) ->
  parse_args opts (mkConfigManager (config_ self) false) = (None, s1) ->
  parseCommandLineArgs self (argv0 :: opts ++ h :: rest) =
  (true, mkConfigManager (config_ s1) true).
Proof.
  intros self argv0 opts h rest s1 Hh Hp; unfold parseCommandLineArgs;
    cbn [tl]; rewrite (parse_args_app _ _ _ _ Hp).
  destruct Hh as [-> | ->]; reflexivity.
Qed.

(** X6: an argument that is none of the known options, reached after options that parse, makes [parseCommandLineArgs] return [false], keeping the settings made by the earlier options. *)
Theorem parseCommandLineArgs_error_keeps_prefix :
  forall self argv0 opts bad rest s1,
  ~ In bad ["--help"; "-h"; "--input"; "-i"; "--output"; "-o";
            "--threshold"; "-t"; "--window"; "-w"; "--hours"]%string ->
  parse_args opts (mkConfigManager (config_ self) false) = (None, s1) ->
  parseCommandLineArgs self (argv0 :: opts ++ bad :: rest) = (false, s1).
Proof.
  intros self argv0 opts bad rest s1 Hn Hp; unfold parseCommandLineArgs;
    cbn [tl]; rewrite (parse_args_app _ _ _ _ Hp); cbn [parse_args].
  repeat match goal with
  | |- context [String.eqb bad ?s] =>
      destruct (String.eqb_spec bad s) as [->|];
        [exfalso; apply Hn; cbn; tauto|]
  end; reflexivity.
Qed.

(** X1: [parseInteger] reads back the decimal text of every integer of the [int] range, refuses the text of any integer outside it, and whatever it accepts lies in [INT_MIN, INT_MAX]. *)
Theorem parseInteger_reads_to_string :
  (forall n, parseInteger (to_string n) =
     if (INT_MIN <=? n) && (n <=? INT_MAX) then Some n else None) /\
  (forall s v, parseInteger s = Some v -> INT_MIN <= v <= INT_MAX).
Proof.
  split; [apply parseInteger_to_string_eq|apply parseInteger_range].
Qed.

(** X4: a single [--threshold]/[-t] or [--window]/[-w] option with the text of [n] sets that field to [n] and returns whether the new configuration is valid when [n] fits an [int]; otherwise the call fails and leaves the configuration as it was. *)
Theorem parseCommandLineArgs_numeric_option : forall self argv0 opt n,
  (opt = "--threshold"%string \/ opt = "-t"%string \/
   opt = "--window"%string \/ opt = "-w"%string) ->
  let reset := mkConfigManager (config_ self) false in
  let config' :=
    if String.eqb opt "--threshold" || String.eqb opt "-t"
    then set_failed_login_threshold (config_ self) n
    else set_time_window_minutes (config_ self) n in
  parseCommandLineArgs self [argv0; opt; to_string n] =
  if (INT_MIN <=? n) && (n <=? INT_MAX)
  then (validateConfiguration (with_config reset config'),
        with_config reset config')
  else (false, reset).
Proof.
  intros self argv0 opt n Hopt reset config'; subst reset config'.
  unfold parseCommandLineArgs; cbn [tl].
  destruct Hopt as [-> | [-> | [-> | ->]]]; cbn [parse_args String.eqb orb Ascii.eqb
    Bool.eqb]; rewrite parseInteger_to_string_eq;
    destruct ((INT_MIN <=? n) && (n <=? INT_MAX)); cbn [parse_args negb andb
    help_requested_ with_config];
    try reflexivity; destruct (validateConfiguration _); reflexivity.
Qed.

(** ** trim *)

Lemma drop_spaces_split : forall l,
  exists p, l = p ++ drop_spaces l /\
    Forall (fun c => isspace c = true) p /\
    (forall c rest, drop_spaces l = c :: rest -> isspace c = false).
Proof.
  induction l as [|c l IH]; cbn [drop_spaces].
  - exists []; split; [reflexivity|split; [constructor|discriminate]].
  - destruct (isspace c) eqn:Hc.
    + destruct IH as (p & Hl & Hp & Hh).
      exists (c :: p); split; [cbn; f_equal; exact Hl|].
      split; [constructor; assumption|exact Hh].
    + exists []; split; [reflexivity|split; [constructor|]].
      intros c' rest Heq; injection Heq as <- _; exact Hc.
Qed.

Lemma drop_spaces_fix : forall l,
  (forall c rest, l = c :: rest -> isspace c = false) -> drop_spaces l = l.
Proof.
  intros [|c l] H; cbn [drop_spaces]; [reflexivity|].
  rewrite (H c l eq_refl); reflexivity.
Qed.

Lemma list_trim : forall str,
  list_ascii_of_string (trim str) =
  rev (drop_spaces (rev (drop_spaces (list_ascii_of_string str)))).
Proof. intros; unfold trim; apply list_ascii_of_string_of_list_ascii. Qed.

Lemma trim_split : forall str,
  exists p q,
    list_ascii_of_string str = p ++ list_ascii_of_string (trim str) ++ q /\
    Forall (fun c => isspace c = true) p /\
    Forall (fun c => isspace c = true) q /\
    (forall c rest, list_ascii_of_string (trim str) = c :: rest ->
       isspace c = false) /\
    (forall c rest, rev (list_ascii_of_string (trim str)) = c :: rest ->
       isspace c = false).
Proof.
  intros str; rewrite list_trim.
  set (l := list_ascii_of_string str).
  destruct (drop_spaces_split l) as (p & Hl & Hp & Hh1).
  set (l1 := drop_spaces l) in *.
  destruct (drop_spaces_split (rev l1)) as (q & Hq & Hqs & Hh2).
  set (l2 := drop_spaces (rev l1)) in *.
  assert (Hl1 : l1 = rev l2 ++ rev q).
  { rewrite <- rev_app_distr, <- Hq, rev_involutive; reflexivity. }
  exists p, (rev q); split; [rewrite Hl, Hl1; reflexivity|].
  split; [assumption|]; split; [apply Forall_rev; assumption|].
  split.
  - intros c rest Heq; apply (Hh1 c (rest ++ rev q)).
    rewrite Hl1, Heq; reflexivity.
  - intros c rest Heq; rewrite rev_involutive in Heq; exact (Hh2 c rest Heq).
Qed.

Lemma trim_idem : forall str, trim (trim str) = trim str.
Proof.
  intros str; destruct (trim_split str) as (p & q & _ & _ & _ & Hh & Ht).
  unfold trim at 1; rewrite (drop_spaces_fix _ Hh).
  rewrite (drop_spaces_fix (rev _) Ht), rev_involutive.
  apply string_of_list_ascii_of_string.
Qed.

Lemma trim_incl : forall str c,
  In c (list_ascii_of_string (trim str)) -> In c (list_ascii_of_string str).
Proof.
  intros str c H; destruct (trim_split str) as (p & q & Hs & _).
  rewrite Hs; apply in_or_app; right; apply in_or_app; left; exact H.
Qed.


(** ** getline *)


Lemma read_until_app : forall d s1 s2,
  ~ In d (list_ascii_of_string s1) ->
  read_until d (s1 ++ String d s2) = (s1, s2, true).
Proof.
  intros d s1 s2; induction s1 as [|c s1 IH]; intros Hn; cbn [String.append read_until].
  - rewrite Ascii.eqb_refl; reflexivity.
  - destruct (Ascii.eqb_spec c d) as [->|Hne];
      [exfalso; apply Hn; left; reflexivity|].
    rewrite IH by (intros H; apply Hn; right; exact H); reflexivity.
Qed.

Lemma read_until_all : forall d s,
  ~ In d (list_ascii_of_string s) -> read_until d s = (s, EmptyString, false).
Proof.
  intros d s; induction s as [|c s IH]; intros Hn; cbn [read_until];
    [reflexivity|].
  destruct (Ascii.eqb_spec c d) as [->|Hne];
    [exfalso; apply Hn; left; reflexivity|].
  rewrite IH by (intros H; apply Hn; right; exact H); reflexivity.
Qed.

Lemma read_until_field : forall d s str rest found,
  read_until d s = (str, rest, found) -> ~ In d (list_ascii_of_string str).
Proof.
  intros d s; induction s as [|c s IH]; intros str rest found H;
    cbn [read_until] in H.
  - injection H as <- _ _; cbn; tauto.
  - destruct (Ascii.eqb_spec c d) as [->|Hne].
    + injection H as <- _ _; cbn; tauto.
    + destruct (read_until d s) as [[str' rest'] found'] eqn:Hr.
      injection H as <- _ _; cbn; intros [H|H]; [congruence|].
      eapply IH; [reflexivity|exact H].
Qed.

Lemma getline_app : forall d s1 s2,
  ~ In d (list_ascii_of_string s1) ->
  getline ((s1 ++ String d s2)%string, false) d = Some (s1, (s2, false)).
Proof.
  intros d s1 s2 Hn; unfold getline.
  rewrite (read_until_app d s1 s2 Hn).
  destruct s1; reflexivity.
Qed.

Lemma getline_last : forall d s,
  ~ In d (list_ascii_of_string s) ->
  getline (s, false) d =
  match s with
  | EmptyString => None
  | String _ _ => Some (s, (EmptyString, true))
  end.
Proof.
  intros d s Hn; unfold getline; rewrite (read_until_all d s Hn).
  destruct s; reflexivity.
Qed.

Lemma getline_field : forall is d str is',
  getline is d = Some (str, is') -> ~ In d (list_ascii_of_string str).
Proof.
  intros [s eof] d str is' H; unfold getline in H.
  destruct eof; [discriminate|]; destruct s as [|c s]; [discriminate|].
  destruct (read_until d (String c s)) as [[str0 rest] found] eqn:Hr.
  injection H as <- _; eapply read_until_field; exact Hr.
Qed.

(** ** parseLogLine *)

Lemma parseLogLine_split : forall parseTimestamp ts u ip st,
  ~ In "|"%char (list_ascii_of_string ts) ->
  ~ In "|"%char (list_ascii_of_string u) ->
  ~ In "|"%char (list_ascii_of_string ip) ->
  ~ In newline (list_ascii_of_string st) ->
  parseLogLine parseTimestamp (ts ++ "|" ++ u ++ "|" ++ ip ++ "|" ++ st) =
  if String.eqb (trim ts) "" || String.eqb (trim u) "" ||
     String.eqb (trim ip) "" || String.eqb (trim st) ""
  then None
  else
    match parseTimestamp (trim ts) with
    | None => None
    | Some t => Some (mkLogEntry t (trim u) (trim ip) (parseStatus (trim st)))
    end.
Proof.
  intros pt ts u ip st Hts Hu Hip Hst; unfold parseLogLine.
  cbn [String.append].
  rewrite (getline_app _ ts _ Hts), (getline_app _ u _ Hu),
    (getline_app _ ip _ Hip), (getline_last _ st Hst).
  destruct st as [|c st']; [|reflexivity].
  replace (trim "") with ""%string by reflexivity.
  rewrite Bool.orb_true_r; reflexivity.
Qed.



(** X11: a line of four [|]-separated fields (no [|] in the first three, no newline in the last) parses to the entry of its trimmed fields when none of them is empty and the trimmed timestamp parses, and to nothing otherwise. *)
Theorem parseLogLine_four_fields : forall parseTimestamp ts u ip st,
  ~ In "|"%char (list_ascii_of_string ts) ->
  ~ In "|"%char (list_ascii_of_string u) ->
  ~ In "|"%char (list_ascii_of_string ip) ->
  ~ In newline (list_ascii_of_string st) ->
  parseLogLine parseTimestamp (ts ++ "|" ++ u ++ "|" ++ ip ++ "|" ++ st) =
  if String.eqb (trim ts) "" || String.eqb (trim u) "" ||
     String.eqb (trim ip) "" || String.eqb (trim st) ""
  then None
  else
    match parseTimestamp (trim ts) with
    | None => None
    | Some t => Some (mkLogEntry t (trim u) (trim ip) (parseStatus (trim st)))
    end.
Proof. intros; apply parseLogLine_split; assumption. Qed.


(** X13: every entry [parseLogLine] returns has a nonempty, trimmed username and address without [|], and a timestamp read from a nonempty trimmed text. *)
Theorem parseLogLine_fields_clean : forall parseTimestamp line e,
  parseLogLine parseTimestamp line = Some e ->
  username e <> ""%string /\ ip_address e <> ""%string /\
  trim (username e) = username e /\ trim (ip_address e) = ip_address e /\
  ~ In "|"%char (list_ascii_of_string (username e)) /\
  ~ In "|"%char (list_ascii_of_string (ip_address e)) /\
  exists ts, ts <> ""%string /\ trim ts = ts /\
    parseTimestamp ts = Some (timestamp e).
Proof.
  intros pt line e H; unfold parseLogLine in H.
  destruct (getline (line, false) "|") as [[f1 s1]|] eqn:G1; [|discriminate].
  destruct (getline s1 "|") as [[f2 s2]|] eqn:G2; [|discriminate].
  destruct (getline s2 "|") as [[f3 s3]|] eqn:G3; [|discriminate].
  destruct (getline s3 newline) as [[f4 s4]|] eqn:G4; [|discriminate].
  apply getline_field in G2, G3.
  destruct (String.eqb_spec (trim f1) ""); [discriminate|].
  destruct (String.eqb_spec (trim f2) ""); [discriminate|].
  destruct (String.eqb_spec (trim f3) ""); [discriminate|].
  destruct (String.eqb_spec (trim f4) ""); [discriminate|].
  cbn [orb] in H.
  destruct (pt (trim f1)) as [t|] eqn:Ht; [|discriminate].
  injection H as <-; cbn [username ip_address timestamp].
  rewrite !trim_idem.
  split; [assumption|]; split; [assumption|].
  split; [reflexivity|]; split; [reflexivity|].
  split; [intros Hn; exact (G2 (trim_incl _ _ Hn))|].
  split; [intros Hn; exact (G3 (trim_incl _ _ Hn))|].
  exists (trim f1); split; [assumption|]; split; [apply trim_idem|exact Ht].
Qed.

(** ** The loading loop of [main] *)

Lemma load_log_lines : forall parseTimestamp lines fuel acc n k,
  Forall (fun l => ~ In newline (list_ascii_of_string l)) lines ->
  (String.length (fold_right (fun l r => l ++ String newline r)%string ""%string lines)
     < fuel)%nat ->
  load_log parseTimestamp fuel
    (fold_right (fun l r => l ++ String newline r)%string ""%string lines, false)
    acc n k =
  (acc ++ flat_map (fun l => if String.eqb l "" then []
                             else match parseLogLine parseTimestamp l with
                                  | Some e => [e] | None => [] end) lines,
   n + Z.of_nat (length lines),
   k + Z.of_nat (length (filter (fun l => negb (String.eqb l "") &&
                          match parseLogLine parseTimestamp l with
                          | Some _ => false | None => true end) lines))).
Proof.
  intros pt lines; induction lines as [|l ls IH]; intros fuel acc n k Hn Hf.
  - destruct fuel as [|fuel]; [cbn in Hf; lia|].
    cbn; rewrite app_nil_r, !Z.add_0_r; reflexivity.
  - inversion Hn as [|? ? Hl Hls]; subst.
    cbn [fold_right] in *; rewrite string_length_app in Hf; cbn [String.length] in Hf.
    destruct fuel as [|fuel]; [lia|].
    cbn [load_log]; rewrite getline_app by exact Hl.
    cbn [flat_map length filter].
    destruct (String.eqb l "");
      [|destruct (parseLogLine pt l) as [e|]]; cbn [negb andb];
      rewrite IH by (auto; lia); rewrite ?Nat2Z.inj_succ;
      (apply pair_equal_spec; split; [apply pair_equal_spec; split|]).
    all: try (cbn [app]; rewrite <- ?app_assoc; reflexivity).
    all: cbn [length]; rewrite ?Nat2Z.inj_succ; lia.
Qed.

(** X14: on a file of newline-terminated lines, the loading loop of [main] keeps the entries of the nonempty lines that parse, in file order, counts every line (empty ones included) and counts as invalid the nonempty lines that do not parse. *)
Theorem load_log_file_lines : forall parseTimestamp lines,
  Forall (fun l => ~ In newline (list_ascii_of_string l)) lines ->
  load_log_file parseTimestamp
    (fold_right (fun l r => l ++ String newline r)%string ""%string lines) =
  (flat_map (fun l => if String.eqb l "" then []
                      else match parseLogLine parseTimestamp l with
                           | Some e => [e] | None => [] end) lines,
   Z.of_nat (length lines),
   Z.of_nat (length (filter (fun l => negb (String.eqb l "") &&
                       match parseLogLine parseTimestamp l with
                       | Some _ => false | None => true end) lines))).
Proof.
  intros pt lines Hn; unfold load_log_file.
  rewrite load_log_lines by (auto; lia); reflexivity.
Qed.

(** ** The windows of the scans *)

Lemma sorted_nth_error_le : forall v a b x y,
  StronglySorted timestamp_le v ->
  nth_error v a = Some x -> nth_error v b = Some y -> (a <= b)%nat ->
  timestamp x <= timestamp y.
Proof.
  induction v as [|h v IH]; intros [|a] [|b] x y Hs Ha Hb Hab; cbn in *;
    try discriminate; try lia.
  - injection Ha as <-; injection Hb as <-; lia.
  - injection Ha as <-; apply StronglySorted_inv in Hs as [_ Hall].
    rewrite Forall_forall in Hall; exact (Hall y (nth_error_In _ _ Hb)).
  - apply StronglySorted_inv in Hs as [Hs _]; eapply IH; eauto; lia.
Qed.

Section ScanWindows.

Variable d : EventDetector.

(** The inner loop stops at an index between the anchor and the end, and
    counts one per record it passes. *)
Lemma count_within_window_span : forall ws rest j c idx c' idx',
  j = S idx ->
  count_within_window d ws rest j c idx = (c', idx') ->
  (idx <= idx' <= idx + length rest)%nat /\ c' = c + Z.of_nat (idx' - idx).
Proof.
  intros ws rest; induction rest as [|e rest IH];
    intros j c idx c' idx' -> H; cbn [count_within_window] in H.
  - injection H as <- <-; cbn [length]; split; [lia|].
    rewrite Nat.sub_diag; lia.
  - destruct (isWithinTimeWindow d (timestamp ws) (timestamp e)).
    + apply IH in H as [H1 H2]; [|reflexivity].
      cbn [length]; split; [lia|]; subst c'; lia.
    + injection H as <- <-; cbn [length]; split; [lia|].
      rewrite Nat.sub_diag; lia.
Qed.

Lemma collect_ips_within_window_span : forall ws rest j s idx,
  j = S idx ->
  (idx <= snd (collect_ips_within_window d ws rest j s idx)
       <= idx + length rest)%nat.
Proof.
  intros ws rest; induction rest as [|e rest IH]; intros j s idx ->;
    cbn [collect_ips_within_window length]; [cbn; lia|].
  destruct (isWithinTimeWindow d (timestamp ws) (timestamp e)); [|cbn; lia].
  specialize (IH (S (S idx)) (set_insert (ip_address e) s) (S idx) eq_refl).
  lia.
Qed.

(** Every failed-login finding from anchor [i] on covers the records
    [i' .. idx] of [v], with [i <= i'], and counts them. *)
Lemma failed_scan_windows : forall u v fuel i,
  Forall (fun ev => exists i' idx ws we,
     (i <= i' <= idx)%nat /\ nth_error v i' = Some ws /\
     nth_error v idx = Some we /\
     SuspiciousEvent.first_occurrence ev = timestamp ws /\
     SuspiciousEvent.last_occurrence ev = timestamp we /\
     SuspiciousEvent.event_count ev = Z.of_nat (S idx - i') /\
     failed_login_threshold_ d <= SuspiciousEvent.event_count ev)
   (failed_scan d u v fuel i).
Proof.
  intros u v fuel; induction fuel as [|fuel IH]; intros i;
    cbn [failed_scan]; [constructor|].
  destruct (nth_error v i) as [ws|] eqn:Hi; [|constructor].
  assert (Hlen : (i < length v)%nat)
    by (apply nth_error_Some; rewrite Hi; discriminate).
  destruct (count_within_window d ws (skipn (S i) v) (S i) 1 i)
    as [count idx] eqn:Hc.
  apply count_within_window_span in Hc as [Hidx Hcount]; [|reflexivity].
  rewrite length_skipn in Hidx.
  destruct (nth_error v idx) as [we|] eqn:Hwe;
    [|apply nth_error_None in Hwe; lia].
  assert (Hweak : forall j, (i <= j)%nat ->
    Forall (fun ev => exists i' idx ws we,
       (j <= i' <= idx)%nat /\ nth_error v i' = Some ws /\
       nth_error v idx = Some we /\
       SuspiciousEvent.first_occurrence ev = timestamp ws /\
       SuspiciousEvent.last_occurrence ev = timestamp we /\
       SuspiciousEvent.event_count ev = Z.of_nat (S idx - i') /\
       failed_login_threshold_ d <= SuspiciousEvent.event_count ev)
     (failed_scan d u v fuel j) ->
    Forall (fun ev => exists i' idx ws we,
       (i <= i' <= idx)%nat /\ nth_error v i' = Some ws /\
       nth_error v idx = Some we /\
       SuspiciousEvent.first_occurrence ev = timestamp ws /\
       SuspiciousEvent.last_occurrence ev = timestamp we /\
       SuspiciousEvent.event_count ev = Z.of_nat (S idx - i') /\
       failed_login_threshold_ d <= SuspiciousEvent.event_count ev)
     (failed_scan d u v fuel j)).
  { intros j Hj; apply Forall_impl.
    intros ev (i' & idx' & ws' & we' & H1 & H2); exists i', idx', ws', we';
      split; [lia|exact H2]. }
  destruct (failed_login_threshold_ d <=? count) eqn:Ht.
  - constructor; [|apply Hweak, IH; lia].
    exists i, idx, ws, we.
    cbn [failed_event SuspiciousEvent.first_occurrence
         SuspiciousEvent.last_occurrence SuspiciousEvent.event_count].
    rewrite (nth_error_nth v idx ws Hwe).
    apply Z.leb_le in Ht.
    repeat split; try assumption; try lia.
  - apply Hweak, IH; lia.
Qed.

Lemma failed_scan_chronological : forall u v fuel i,
  StronglySorted timestamp_le v ->
  Sorted (fun a b => SuspiciousEvent.last_occurrence a <=
                     SuspiciousEvent.first_occurrence b)
    (failed_scan d u v fuel i).
Proof.
  intros u v fuel; induction fuel as [|fuel IH]; intros i Hs;
    cbn [failed_scan]; [constructor|].
  destruct (nth_error v i) as [ws|] eqn:Hi; [|constructor].
  assert (Hlen : (i < length v)%nat)
    by (apply nth_error_Some; rewrite Hi; discriminate).
  destruct (count_within_window d ws (skipn (S i) v) (S i) 1 i)
    as [count idx] eqn:Hc.
  apply count_within_window_span in Hc as [Hidx _]; [|reflexivity].
  rewrite length_skipn in Hidx.
  destruct (failed_login_threshold_ d <=? count); [|apply IH; assumption].
  constructor; [apply IH; assumption|].
  pose proof (failed_scan_windows u v fuel (S idx)) as Hw.
  destruct (failed_scan d u v fuel (S idx)) as [|ev fs]; constructor.
  apply Forall_inv in Hw as (i' & idx' & ws' & we' & Hr & Hws' & _ & Hf & _).
  cbn [failed_event SuspiciousEvent.last_occurrence]; rewrite Hf.
  destruct (nth_error v idx) as [we|] eqn:Hwe;
    [|apply nth_error_None in Hwe; lia].
  rewrite (nth_error_nth v idx ws Hwe).
  eapply sorted_nth_error_le; eauto; lia.
Qed.

Lemma failed_scan_counts : forall u v fuel i,
  fold_right Z.add 0 (map SuspiciousEvent.event_count (failed_scan d u v fuel i))
    <= Z.of_nat (length v - i).
Proof.
  intros u v fuel; induction fuel as [|fuel IH]; intros i;
    cbn [failed_scan]; [cbn; lia|].
  destruct (nth_error v i) as [ws|] eqn:Hi; [|cbn; lia].
  assert (Hlen : (i < length v)%nat)
    by (apply nth_error_Some; rewrite Hi; discriminate).
  destruct (count_within_window d ws (skipn (S i) v) (S i) 1 i)
    as [count idx] eqn:Hc.
  apply count_within_window_span in Hc as [Hidx Hcount]; [|reflexivity].
  rewrite length_skipn in Hidx.
  destruct (failed_login_threshold_ d <=? count).
  - cbn [map fold_right failed_event SuspiciousEvent.event_count].
    specialize (IH (S idx)); lia.
  - specialize (IH (S i)); lia.
Qed.

Lemma ip_scan_windows : forall u v fuel i,
  Forall (fun ev => exists i' idx ws we,
     (i <= i' <= idx)%nat /\ nth_error v i' = Some ws /\
     nth_error v idx = Some we /\
     SuspiciousEvent.first_occurrence ev = timestamp ws /\
     SuspiciousEvent.last_occurrence ev = timestamp we /\
     2 <= SuspiciousEvent.event_count ev)
   (ip_scan d u v fuel i).
Proof.
  intros u v fuel; induction fuel as [|fuel IH]; intros i;
    cbn [ip_scan]; [constructor|].
  destruct (nth_error v i) as [ws|] eqn:Hi; [|constructor].
  assert (Hlen : (i < length v)%nat)
    by (apply nth_error_Some; rewrite Hi; discriminate).
  pose proof (collect_ips_within_window_span ws (skipn (S i) v) (S i)
                (set_insert (ip_address ws) []) i eq_refl) as Hidx.
  destruct (collect_ips_within_window d ws (skipn (S i) v) (S i)
              (set_insert (ip_address ws) []) i) as [ips idx].
  cbn [snd] in Hidx; rewrite length_skipn in Hidx.
  destruct (nth_error v idx) as [we|] eqn:Hwe;
    [|apply nth_error_None in Hwe; lia].
  assert (Hweak : forall j, (i <= j)%nat ->
    Forall (fun ev => exists i' idx ws we,
       (j <= i' <= idx)%nat /\ nth_error v i' = Some ws /\
       nth_error v idx = Some we /\
       SuspiciousEvent.first_occurrence ev = timestamp ws /\
       SuspiciousEvent.last_occurrence ev = timestamp we /\
       2 <= SuspiciousEvent.event_count ev)
     (ip_scan d u v fuel j) ->
    Forall (fun ev => exists i' idx ws we,
       (i <= i' <= idx)%nat /\ nth_error v i' = Some ws /\
       nth_error v idx = Some we /\
       SuspiciousEvent.first_occurrence ev = timestamp ws /\
       SuspiciousEvent.last_occurrence ev = timestamp we /\
       2 <= SuspiciousEvent.event_count ev)
     (ip_scan d u v fuel j)).
  { intros j Hj; apply Forall_impl.
    intros ev (i' & idx' & ws' & we' & H1 & H2); exists i', idx', ws', we';
      split; [lia|exact H2]. }
  destruct (2 <=? length ips)%nat eqn:Ht.
  - constructor; [|apply Hweak, IH; lia].
    exists i, idx, ws, we.
    cbn [ip_event SuspiciousEvent.first_occurrence
         SuspiciousEvent.last_occurrence SuspiciousEvent.event_count].
    rewrite (nth_error_nth v idx ws Hwe).
    apply Nat.leb_le in Ht.
    repeat split; try assumption; try lia.
  - apply Hweak, IH; lia.
Qed.

Lemma ip_scan_chronological : forall u v fuel i,
  StronglySorted timestamp_le v ->
  Sorted (fun a b => SuspiciousEvent.last_occurrence a <=
                     SuspiciousEvent.first_occurrence b)
    (ip_scan d u v fuel i).
Proof.
  intros u v fuel; induction fuel as [|fuel IH]; intros i Hs;
    cbn [ip_scan]; [constructor|].
  destruct (nth_error v i) as [ws|] eqn:Hi; [|constructor].
  assert (Hlen : (i < length v)%nat)
    by (apply nth_error_Some; rewrite Hi; discriminate).
  pose proof (collect_ips_within_window_span ws (skipn (S i) v) (S i)
                (set_insert (ip_address ws) []) i eq_refl) as Hidx.
  destruct (collect_ips_within_window d ws (skipn (S i) v) (S i)
              (set_insert (ip_address ws) []) i) as [ips idx].
  cbn [snd] in Hidx; rewrite length_skipn in Hidx.
  destruct (2 <=? length ips)%nat; [|apply IH; assumption].
  constructor; [apply IH; assumption|].
  pose proof (ip_scan_windows u v fuel (S idx)) as Hw.
  destruct (ip_scan d u v fuel (S idx)) as [|ev fs]; constructor.
  apply Forall_inv in Hw as (i' & idx' & ws' & we' & Hr & Hws' & _ & Hf & _).
  cbn [ip_event SuspiciousEvent.last_occurrence]; rewrite Hf.
  destruct (nth_error v idx) as [we|] eqn:Hwe;
    [|apply nth_error_None in Hwe; lia].
  rewrite (nth_error_nth v idx ws Hwe).
  eapply sorted_nth_error_le; eauto; lia.
Qed.

End ScanWindows.

(** ** The detectors over a whole input *)

Lemma Sorted_app_rel {A} (R : A -> A -> Prop) : forall l1 l2,
  Sorted R l1 -> Sorted R l2 ->
  (forall x y, In x l1 -> In y l2 -> R x y) -> Sorted R (l1 ++ l2).
Proof.
  induction l1 as [|a l1 IH]; intros l2 H1 H2 H; [exact H2|].
  apply Sorted_inv in H1 as [H1 Hd]; cbn [app]; constructor.
  - apply IH; auto; intros x y Hx Hy; apply H; [right|]; assumption.
  - destruct l1 as [|b l1]; cbn [app].
    + destruct l2 as [|c l2]; constructor; apply H; left; reflexivity.
    + apply HdRel_inv in Hd; constructor; exact Hd.
Qed.

Lemma fold_left_filter {A B} (f : B -> A -> B) (p : A -> bool) : forall l m,
  (forall m a, p a = false -> f m a = m) ->
  fold_left f (filter p l) m = fold_left f l m.
Proof.
  induction l as [|a l IH]; intros m H; cbn [filter fold_left]; [reflexivity|].
  destruct (p a) eqn:Hp; cbn [fold_left]; [apply IH; assumption|].
  rewrite (H m a Hp); apply IH; assumption.
Qed.

Lemma flat_map_filter {A B} (f : A -> list B) (p : A -> bool) : forall l,
  (forall a, p a = false -> f a = []) ->
  flat_map f (filter p l) = flat_map f l.
Proof.
  induction l as [|a l IH]; intros H; cbn [filter flat_map]; [reflexivity|].
  destruct (p a) eqn:Hp; cbn [flat_map]; rewrite IH by assumption;
    [reflexivity|rewrite (H a Hp); reflexivity].
Qed.

Lemma filter_filter_impl {A} (p q : A -> bool) : forall l,
  (forall x, p x = true -> q x = true) -> filter p (filter q l) = filter p l.
Proof.
  induction l as [|a l IH]; intros H; cbn [filter]; [reflexivity|].
  destruct (q a) eqn:Hq; cbn [filter].
  - destruct (p a); [f_equal|]; apply IH; assumption.
  - destruct (p a) eqn:Hp;
      [rewrite (H a Hp) in Hq; discriminate|apply IH; assumption].
Qed.

Lemma group_by_username_filter : forall s entries,
  group_by_username s
    (filter (fun e => LoginStatus_eqb (status e) s) entries) =
  group_by_username s entries.
Proof.
  intros s entries; unfold group_by_username; apply fold_left_filter.
  intros m a Hp; rewrite Hp; reflexivity.
Qed.

Lemma user_records_other : forall s u u' entries,
  u' <> u ->
  user_records s u' (filter (fun e => String.eqb (username e) u) entries) = [].
Proof.
  intros s u u' entries Hne; unfold user_records; apply filter_drop_all.
  intros x Hx; apply filter_In in Hx as [_ Hx].
  apply String.eqb_eq in Hx; rewrite Hx.
  destruct (String.eqb_spec u u') as [->|_]; [congruence|apply Bool.andb_false_r].
Qed.

Lemma user_records_own : forall s u entries,
  user_records s u (filter (fun e => String.eqb (username e) u) entries) =
  user_records s u entries.
Proof.
  intros s u entries; unfold user_records; apply filter_filter_impl.
  intros x Hx; apply Bool.andb_true_iff in Hx as [_ Hx]; exact Hx.
Qed.

Section ByUser.

Variable f : string -> list LogEntry -> list SuspiciousEvent.
Hypothesis f_username : forall k v ev,
  In ev (f k v) -> SuspiciousEvent.username ev = k.

Lemma same_user_sorted : forall k l,
  (forall ev, In ev l -> SuspiciousEvent.username ev = k) ->
  Sorted (fun a b => String.compare (SuspiciousEvent.username a)
                       (SuspiciousEvent.username b) <> Gt) l.
Proof.
  intros k; induction l as [|a l IH]; intros H; constructor.
  - apply IH; intros ev Hev; apply H; right; exact Hev.
  - destruct l as [|b l]; constructor.
    rewrite (H a (or_introl eq_refl)), (H b (or_intror (or_introl eq_refl))).
    rewrite string_compare_refl; discriminate.
Qed.

Lemma flat_map_users_sorted : forall m,
  keys_sorted m ->
  Sorted (fun a b => String.compare (SuspiciousEvent.username a)
                       (SuspiciousEvent.username b) <> Gt)
    (flat_map (fun p => f (fst p) (snd p)) m).
Proof.
  unfold keys_sorted; induction m as [|[k v] m IH]; intros Hs;
    cbn [flat_map map fst snd] in *; [constructor|].
  apply StronglySorted_inv in Hs as [Hs Hall].
  apply Sorted_app_rel; [|apply IH; assumption|].
  - apply (same_user_sorted k); intros ev Hev; exact (f_username _ _ _ Hev).
  - intros x y Hx Hy; rewrite (f_username _ _ _ Hx).
    apply in_flat_map in Hy as [[k' v'] [Hp Hy]].
    rewrite (f_username _ _ _ Hy); cbn [fst].
    rewrite Forall_forall in Hall; rewrite (Hall k' (in_map fst _ _ Hp)).
    discriminate.
Qed.

Variable D : list LogEntry -> list SuspiciousEvent.
Variable s : LoginStatus.
Hypothesis f_nil : forall k, f k [] = [].
Hypothesis D_of_user : forall entries u,
  filter (fun ev => String.eqb (SuspiciousEvent.username ev) u) (D entries) =
  f u (user_records s u entries).

Lemma findings_of_user_restrict : forall entries u,
  filter (fun ev => String.eqb (SuspiciousEvent.username ev) u) (D entries) =
  D (filter (fun e => String.eqb (username e) u) entries).
Proof.
  intros entries u.
  transitivity (filter (fun ev => String.eqb (SuspiciousEvent.username ev) u)
                  (D (filter (fun e => String.eqb (username e) u) entries))).
  - rewrite !D_of_user, user_records_own; reflexivity.
  - apply filter_keep_all; intros ev Hev.
    destruct (String.eqb_spec (SuspiciousEvent.username ev) u) as [_|Hne];
      [reflexivity|exfalso].
    assert (Hin : In ev (filter (fun ev' => String.eqb
                    (SuspiciousEvent.username ev') (SuspiciousEvent.username ev))
                    (D (filter (fun e => String.eqb (username e) u) entries))))
      by (apply filter_In; split; [assumption|apply String.eqb_refl]).
    rewrite D_of_user, user_records_other, f_nil in Hin by exact Hne.
    exact Hin.
Qed.

End ByUser.

Lemma outside_hours_of_user : forall getHourOfDay d entries u,
  filter (fun ev => String.eqb (SuspiciousEvent.username ev) u)
    (detectLoginsOutsideBusinessHours getHourOfDay d entries) =
  detectLoginsOutsideBusinessHours getHourOfDay d
    (filter (fun e => String.eqb (username e) u) entries).
Proof.
  intros g d entries u; unfold detectLoginsOutsideBusinessHours.
  induction entries as [|a entries IH]; [reflexivity|].
  cbn [flat_map]; rewrite filter_app, IH; cbn [filter].
  destruct (String.eqb (username a) u) eqn:Hu; cbn [flat_map];
    [f_equal|];
    destruct (negb (LoginStatus_eqb (status a) SUCCESS));
    try reflexivity;
    destruct (_ || _);
    cbn [filter outside_hours_event SuspiciousEvent.username app];
    rewrite ?Hu; reflexivity.
Qed.

Section DetectorInvariants.

Variable sort_by_timestamp : list LogEntry -> list LogEntry.
Hypothesis sort_perm : forall l, Permutation (sort_by_timestamp l) l.
Hypothesis sort_sorted : forall l, Sorted timestamp_le (sort_by_timestamp l).

Lemma sort_strongly_sorted : forall l,
  StronglySorted timestamp_le (sort_by_timestamp l).
Proof.
  intro l; apply Sorted_StronglySorted; [|apply sort_sorted].
  intros a b c Hab Hbc; unfold timestamp_le in *; lia.
Qed.

(** X15: for every user, each failed-login finding counts at least the threshold and has [first <= last]; the findings are in time order, each ending no later than the next starts; and their counts add up to at most the user's number of failed logins, so no attempt is counted twice. *)
Theorem failed_findings_disjoint_windows : forall d entries u,
  let fs := filter (fun ev => String.eqb (SuspiciousEvent.username ev) u)
              (detectMultipleFailedLogins sort_by_timestamp d entries) in
  Forall (fun ev => failed_login_threshold_ d <= SuspiciousEvent.event_count ev /\
                    SuspiciousEvent.first_occurrence ev <=
                    SuspiciousEvent.last_occurrence ev) fs /\
  Sorted (fun a b => SuspiciousEvent.last_occurrence a <=
                     SuspiciousEvent.first_occurrence b) fs /\
  fold_right Z.add 0 (map SuspiciousEvent.event_count fs) <=
    Z.of_nat (length (user_records FAILED u entries)).
Proof.
  intros d entries u fs; subst fs.
  rewrite (failed_findings_of_user sort_by_timestamp sort_perm).
  unfold failed_logins_of_user.
  pose proof (sort_strongly_sorted (user_records FAILED u entries)) as Hs.
  pose proof (Permutation_length (sort_perm (user_records FAILED u entries)))
    as Hl.
  split; [|split].
  - eapply Forall_impl; [|apply failed_scan_windows].
    intros ev (i' & idx & ws & we & Hr & Hws & Hwe & Hf & Hla & _ & Ht).
    split; [exact Ht|].
    rewrite Hf, Hla; eapply sorted_nth_error_le; eauto; lia.
  - apply failed_scan_chronological; assumption.
  - rewrite <- Hl.
    pose proof (failed_scan_counts d u
      (sort_by_timestamp (user_records FAILED u entries))
      (length (sort_by_timestamp (user_records FAILED u entries))) 0).
    lia.
Qed.

(** X16: for every user, each multiple-address finding counts at least two addresses and has [first <= last], and the findings are in time order, each ending no later than the next starts. *)
Theorem ip_findings_ordered_windows : forall d entries u,
  let fs := filter (fun ev => String.eqb (SuspiciousEvent.username ev) u)
              (detectMultipleIPAddresses sort_by_timestamp d entries) in
  Forall (fun ev => 2 <= SuspiciousEvent.event_count ev /\
                    SuspiciousEvent.first_occurrence ev <=
                    SuspiciousEvent.last_occurrence ev) fs /\
  Sorted (fun a b => SuspiciousEvent.last_occurrence a <=
                     SuspiciousEvent.first_occurrence b) fs.
Proof.
  intros d entries u fs; subst fs.
  rewrite (ip_findings_of_user sort_by_timestamp sort_perm).
  unfold ip_logins_of_user.
  pose proof (sort_strongly_sorted (user_records SUCCESS u entries)) as Hs.
  split.
  - eapply Forall_impl; [|apply ip_scan_windows].
    intros ev (i' & idx & ws & we & Hr & Hws & Hwe & Hf & Hla & Ht).
    split; [exact Ht|].
    rewrite Hf, Hla; eapply sorted_nth_error_le; eauto; lia.
  - apply ip_scan_chronological; assumption.
Qed.

(** X19: the findings [detectAll] reports for a user are exactly those it reports on that user's records alone: other users' records neither add nor remove any. *)
Theorem findings_of_user_from_own_records : forall getHourOfDay d entries u,
  filter (fun ev => String.eqb (SuspiciousEvent.username ev) u)
    (detectAll sort_by_timestamp getHourOfDay d entries) =
  detectAll sort_by_timestamp getHourOfDay d
    (filter (fun e => String.eqb (username e) u) entries).
Proof.
  intros g d entries u; unfold detectAll; rewrite !filter_app.
  f_equal; [|f_equal].
  - apply (findings_of_user_restrict (failed_logins_of_user sort_by_timestamp d)
             _ FAILED).
    + intro k; unfold failed_logins_of_user;
        rewrite (sort_nil sort_by_timestamp sort_perm); reflexivity.
    + apply (failed_findings_of_user sort_by_timestamp sort_perm).
  - apply outside_hours_of_user.
  - apply (findings_of_user_restrict (ip_logins_of_user sort_by_timestamp d)
             _ SUCCESS).
    + intro k; unfold ip_logins_of_user;
        rewrite (sort_nil sort_by_timestamp sort_perm); reflexivity.
    + apply (ip_findings_of_user sort_by_timestamp sort_perm).
Qed.

End DetectorInvariants.

(** X17: the failed-login findings and the multiple-address findings each come grouped by user, users in increasing string order (the order of the [std::map]). *)
Theorem findings_grouped_by_user : forall sort_by_timestamp d entries,
  Sorted (fun a b => String.compare (SuspiciousEvent.username a)
                       (SuspiciousEvent.username b) <> Gt)
    (detectMultipleFailedLogins sort_by_timestamp d entries) /\
  Sorted (fun a b => String.compare (SuspiciousEvent.username a)
                       (SuspiciousEvent.username b) <> Gt)
    (detectMultipleIPAddresses sort_by_timestamp d entries).
Proof.
  intros sort d entries; split.
  - apply flat_map_users_sorted; [|apply group_by_username_sorted].
    apply failed_logins_of_user_username.
  - apply flat_map_users_sorted; [|apply group_by_username_sorted].
    apply ip_logins_of_user_username.
Qed.

(** X18: each detector reads only the records of its own status (FAILED for the failed-login scan, SUCCESS for the other two); records of status [UNKNOWN] never change the findings of [detectAll]. *)
Theorem detectors_read_own_status : forall sort_by_timestamp getHourOfDay d entries,
  detectMultipleFailedLogins sort_by_timestamp d
    (filter (fun e => LoginStatus_eqb (status e) FAILED) entries) =
  detectMultipleFailedLogins sort_by_timestamp d entries /\
  detectLoginsOutsideBusinessHours getHourOfDay d
    (filter (fun e => LoginStatus_eqb (status e) SUCCESS) entries) =
  detectLoginsOutsideBusinessHours getHourOfDay d entries /\
  detectMultipleIPAddresses sort_by_timestamp d
    (filter (fun e => LoginStatus_eqb (status e) SUCCESS) entries) =
  detectMultipleIPAddresses sort_by_timestamp d entries /\
  detectAll sort_by_timestamp getHourOfDay d
    (filter (fun e => negb (LoginStatus_eqb (status e) UNKNOWN)) entries) =
  detectAll sort_by_timestamp getHourOfDay d entries.
Proof.
  intros sort g d.
  assert (HF : forall entries,
    detectMultipleFailedLogins sort d
      (filter (fun e => LoginStatus_eqb (status e) FAILED) entries) =
    detectMultipleFailedLogins sort d entries)
    by (intros; unfold detectMultipleFailedLogins;
        rewrite group_by_username_filter; reflexivity).
  assert (HO : forall entries,
    detectLoginsOutsideBusinessHours g d
      (filter (fun e => LoginStatus_eqb (status e) SUCCESS) entries) =
    detectLoginsOutsideBusinessHours g d entries).
  { intros; unfold detectLoginsOutsideBusinessHours; apply flat_map_filter.
    intros a Ha; rewrite Ha; reflexivity. }
  assert (HI : forall entries,
    detectMultipleIPAddresses sort d
      (filter (fun e => LoginStatus_eqb (status e) SUCCESS) entries) =
    detectMultipleIPAddresses sort d entries)
    by (intros; unfold detectMultipleIPAddresses;
        rewrite group_by_username_filter; reflexivity).
  intros entries; split; [apply HF|]; split; [apply HO|]; split; [apply HI|].
  unfold detectAll.
  rewrite <- (HF entries), <- (HO entries), <- (HI entries).
  rewrite <- (HF (filter _ entries)), <- (HO (filter _ entries)),
    <- (HI (filter _ entries)).
  rewrite !filter_filter_impl; try reflexivity;
    intros [t un ip st]; destruct st; cbn; congruence.
Qed.

(** X9: [trim] removes exactly a run of leading and a run of trailing whitespace: the input is those runs around the result, which neither starts nor ends with whitespace; trimming twice is trimming once. *)
Theorem trim_strips_whitespace : forall str,
  (exists p q,
    list_ascii_of_string str = p ++ list_ascii_of_string (trim str) ++ q /\
    Forall (fun c => isspace c = true) p /\
    Forall (fun c => isspace c = true) q /\
    (forall c rest, list_ascii_of_string (trim str) = c :: rest ->
       isspace c = false) /\
    (forall c rest, rev (list_ascii_of_string (trim str)) = c :: rest ->
       isspace c = false)) /\
  trim (trim str) = trim str.
Proof. intros str; split; [apply trim_split|apply trim_idem]. Qed.

Lemma toupper_idem : forall c, toupper (toupper c) = toupper c.
Proof.
  intros [[] [] [] [] [] [] [] []]; vm_compute; reflexivity.
Qed.

(** X10: [parseStatus] ignores letter case: upper-casing its argument first changes nothing. *)
Theorem parseStatus_case_insensitive : forall s,
  parseStatus (string_toupper s) = parseStatus s.
Proof.
  intros s; unfold parseStatus.
  assert (H : string_toupper (string_toupper s) = string_toupper s).
  { induction s as [|c s IH]; cbn [string_toupper]; [reflexivity|].
    rewrite toupper_idem, IH; reflexivity. }
  rewrite H; reflexivity.
Qed.

(** ** Witnesses *)

Ltac char_not_in :=
  let H := fresh "H" in
  intro H; cbn in H; repeat (destruct H as [H|H]; [discriminate H|]); exact H.

Lemma parseCommandLineArgs_valid_detector_witness :
  parseCommandLineArgs new_ConfigManager
    ["log-analyzer"; "--threshold"; "3"; "--hours"; "9-17"]%string =
    (true, mkConfigManager (mkConfiguration 3 10 9 17 "logs/sample.log"
                              "reports/report.txt") false) /\
  isHelpRequested (mkConfigManager (mkConfiguration 3 10 9 17
                     "logs/sample.log" "reports/report.txt") false) = false /\
  (let det := detector_of_configuration (mkConfiguration 3 10 9 17
                "logs/sample.log" "reports/report.txt") in
   0 < failed_login_threshold_ det /\ 0 < time_window_minutes_ det /\
   0 <= business_hour_start_ det < business_hour_end_ det /\
   business_hour_end_ det <= 23 /\
   "logs/sample.log"%string <> ""%string /\
   "reports/report.txt"%string <> ""%string).
Proof.
  assert (H1 : parseCommandLineArgs new_ConfigManager
    ["log-analyzer"; "--threshold"; "3"; "--hours"; "9-17"]%string =
    (true, mkConfigManager (mkConfiguration 3 10 9 17 "logs/sample.log"
                              "reports/report.txt") false))
    by (vm_compute; reflexivity).
  split; [exact H1|split; [reflexivity|]].
  exact (parseCommandLineArgs_valid_detector _ _ _ H1 eq_refl).
Defined.

Lemma parseCommandLineArgs_help_skips_rest_witness :
  ("--help"%string = "--help"%string \/ "--help"%string = "-h"%string) /\
  parse_args ["--threshold"; "0"]%string
    (mkConfigManager (config_ new_ConfigManager) false) =
    (None, mkConfigManager (set_failed_login_threshold default_configuration 0)
             false) /\
  parseCommandLineArgs new_ConfigManager
    ("log-analyzer" :: ["--threshold"; "0"] ++ "--help" :: ["--bogus"])%string =
    (true, mkConfigManager (set_failed_login_threshold default_configuration 0)
             true).
Proof.
  assert (Hh : "--help"%string = "--help"%string \/
               "--help"%string = "-h"%string) by (left; reflexivity).
  assert (Hp : parse_args ["--threshold"; "0"]%string
    (mkConfigManager (config_ new_ConfigManager) false) =
    (None, mkConfigManager (set_failed_login_threshold default_configuration 0)
             false)) by (vm_compute; reflexivity).
  split; [exact Hh|split; [exact Hp|]].
  exact (parseCommandLineArgs_help_skips_rest new_ConfigManager "log-analyzer"
           _ _ ["--bogus"]%string _ Hh Hp).
Defined.

Lemma parseCommandLineArgs_error_keeps_prefix_witness :
  ~ In "--verbose"%string
      ["--help"; "-h"; "--input"; "-i"; "--output"; "-o";
       "--threshold"; "-t"; "--window"; "-w"; "--hours"]%string /\
  parse_args ["--threshold"; "3"]%string
    (mkConfigManager (config_ new_ConfigManager) false) =
    (None, mkConfigManager (set_failed_login_threshold default_configuration 3)
             false) /\
  parseCommandLineArgs new_ConfigManager
    ("log-analyzer" :: ["--threshold"; "3"] ++ "--verbose" :: [])%string =
    (false, mkConfigManager (set_failed_login_threshold default_configuration 3)
              false).
Proof.
  assert (Hn : ~ In "--verbose"%string
      ["--help"; "-h"; "--input"; "-i"; "--output"; "-o";
       "--threshold"; "-t"; "--window"; "-w"; "--hours"]%string).
  { intro H; cbn in H; repeat (destruct H as [H|H]; [discriminate H|]);
      exact H. }
  assert (Hp : parse_args ["--threshold"; "3"]%string
    (mkConfigManager (config_ new_ConfigManager) false) =
    (None, mkConfigManager (set_failed_login_threshold default_configuration 3)
             false)) by (vm_compute; reflexivity).
  split; [exact Hn|split; [exact Hp|]].
  exact (parseCommandLineArgs_error_keeps_prefix new_ConfigManager
           "log-analyzer" _ _ [] _ Hn Hp).
Defined.

Lemma parseCommandLineArgs_numeric_option_witness :
  ("-w"%string = "--threshold"%string \/ "-w"%string = "-t"%string \/
   "-w"%string = "--window"%string \/ "-w"%string = "-w"%string) /\
  parseCommandLineArgs new_ConfigManager ["log-analyzer"; "-w"; to_string 15]%string =
  (true, mkConfigManager (set_time_window_minutes default_configuration 15) false) /\
  parseCommandLineArgs new_ConfigManager ["log-analyzer"; "-w"; to_string 0]%string =
  (false, mkConfigManager (set_time_window_minutes default_configuration 0) false).
Proof.
  assert (Hopt : "-w"%string = "--threshold"%string \/ "-w"%string = "-t"%string \/
                 "-w"%string = "--window"%string \/ "-w"%string = "-w"%string)
    by (right; right; right; reflexivity).
  split; [exact Hopt|split].
  - pose proof (parseCommandLineArgs_numeric_option new_ConfigManager
                  "log-analyzer" "-w" 15 Hopt) as E; cbv zeta in E.
    rewrite E; vm_compute; reflexivity.
  - pose proof (parseCommandLineArgs_numeric_option new_ConfigManager
                  "log-analyzer" "-w" 0 Hopt) as E; cbv zeta in E.
    rewrite E; vm_compute; reflexivity.
Defined.

Lemma parseLogLine_four_fields_witness :
  ~ In "|"%char (list_ascii_of_string " 2026-01-18 08:45:12 ") /\
  ~ In "|"%char (list_ascii_of_string " alice") /\
  ~ In "|"%char (list_ascii_of_string "10.0.0.1 ") /\
  ~ In newline (list_ascii_of_string " Success ") /\
  parseLogLine sample_parseTimestamp
    (" 2026-01-18 08:45:12 " ++ "|" ++ " alice" ++ "|" ++ "10.0.0.1 " ++ "|" ++
     " Success ") = Some (mkLogEntry 0 "alice" "10.0.0.1" SUCCESS).
Proof.
  assert (H1 : ~ In "|"%char (list_ascii_of_string " 2026-01-18 08:45:12 "))
    by char_not_in.
  assert (H2 : ~ In "|"%char (list_ascii_of_string " alice")) by char_not_in.
  assert (H3 : ~ In "|"%char (list_ascii_of_string "10.0.0.1 ")) by char_not_in.
  assert (H4 : ~ In newline (list_ascii_of_string " Success ")) by char_not_in.
  split; [exact H1|split; [exact H2|split; [exact H3|split; [exact H4|]]]].
  rewrite (parseLogLine_four_fields sample_parseTimestamp _ _ _ _ H1 H2 H3 H4).
  vm_compute; reflexivity.
Defined.


Lemma parseLogLine_fields_clean_witness :
  parseLogLine sample_parseTimestamp sample_line =
    Some (mkLogEntry 0 "alice" "10.0.0.1" FAILED) /\
  exists ts, ts <> ""%string /\ trim ts = ts /\
    sample_parseTimestamp ts = Some 0.
Proof.
  assert (H : parseLogLine sample_parseTimestamp sample_line =
    Some (mkLogEntry 0 "alice" "10.0.0.1" FAILED)) by (vm_compute; reflexivity).
  split; [exact H|].
  exact (proj2 (proj2 (proj2 (proj2 (proj2 (proj2
           (parseLogLine_fields_clean sample_parseTimestamp _ _ H))))))).
Defined.

Lemma load_log_file_lines_witness :
  Forall (fun l => ~ In newline (list_ascii_of_string l))
    [sample_line; ""; "garbage"]%string /\
  load_log_file sample_parseTimestamp
    (fold_right (fun l r => l ++ String newline r)%string ""%string
       [sample_line; ""; "garbage"]%string) =
  ([mkLogEntry 0 "alice" "10.0.0.1" FAILED], 3, 1).
Proof.
  assert (Hn : Forall (fun l => ~ In newline (list_ascii_of_string l))
    [sample_line; ""; "garbage"]%string)
    by (repeat constructor; unfold sample_line; char_not_in).
  split; [exact Hn|].
  rewrite (load_log_file_lines sample_parseTimestamp _ Hn).
  vm_compute; reflexivity.
Defined.

Lemma failed_findings_disjoint_windows_witness :
  let fs := filter (fun ev => String.eqb (SuspiciousEvent.username ev) "alice")
              (detectMultipleFailedLogins TimestampSort.sort threshold_three
                 ten_failures) in
  Forall (fun ev => failed_login_threshold_ threshold_three <=
                    SuspiciousEvent.event_count ev /\
                    SuspiciousEvent.first_occurrence ev <=
                    SuspiciousEvent.last_occurrence ev) fs /\
  Sorted (fun a b => SuspiciousEvent.last_occurrence a <=
                     SuspiciousEvent.first_occurrence b) fs /\
  fold_right Z.add 0 (map SuspiciousEvent.event_count fs) <=
    Z.of_nat (length (user_records FAILED "alice" ten_failures)).
Proof.
  exact (failed_findings_disjoint_windows TimestampSort.sort merge_sort_perm
           merge_sort_sorted threshold_three ten_failures "alice").
Defined.

Lemma ip_findings_ordered_windows_witness :
  let fs := filter (fun ev => String.eqb (SuspiciousEvent.username ev) "alice")
              (detectMultipleIPAddresses TimestampSort.sort default_detector
                 three_logins_two_addresses) in
  Forall (fun ev => 2 <= SuspiciousEvent.event_count ev /\
                    SuspiciousEvent.first_occurrence ev <=
                    SuspiciousEvent.last_occurrence ev) fs /\
  Sorted (fun a b => SuspiciousEvent.last_occurrence a <=
                     SuspiciousEvent.first_occurrence b) fs.
Proof.
  exact (ip_findings_ordered_windows TimestampSort.sort merge_sort_perm
           merge_sort_sorted default_detector three_logins_two_addresses "alice").
Defined.

Lemma findings_of_user_from_own_records_witness :
  filter (fun ev => String.eqb (SuspiciousEvent.username ev) "bob")
    (detectAll TimestampSort.sort (fun _ => 3) default_detector
       (three_logins_two_addresses ++ five_failures_five_addresses)) =
  detectAll TimestampSort.sort (fun _ => 3) default_detector
    (filter (fun e => String.eqb (username e) "bob")
       (three_logins_two_addresses ++ five_failures_five_addresses)) /\
  detectAll TimestampSort.sort (fun _ => 3) default_detector
    five_failures_five_addresses = [five_failures_finding].
Proof.
  split.
  - exact (findings_of_user_from_own_records TimestampSort.sort merge_sort_perm
             (fun _ => 3) default_detector _ "bob").
  - vm_compute; reflexivity.
Defined.
